(** * mproxy: response buffering and the per-service request pipeline

    A shallow embedding of [internal/server/response_buffer_middleware.go]
    and [internal/server/service.go].

    Conventions.
    - Go [int]/[int64] values are [Z]; [[]byte] is [list byte]; Go strings
      are [string]; a [[]string] is [option (list string)], [None] being the
      nil slice.
    - An [http.ResponseWriter] is observed through the calls made on it: the
      model keeps, per writer, the ordered list of calls it received.  Calls
      into [net/http] helpers ([http.Error], [http.Redirect]) are recorded as
      such, with their arguments; what they mean for the response is given
      by [Http.status] and [Http.sentHeader], and what the client of a
      connection that may have been hijacked receives by [Http.received].
    - [slog] output is the ordered list of records handed to the default
      logger.
    - A request runs sequentially: locks have no state, and a blocking
      [Wait] returns what the event that ends the wait makes it return.
    - JSON documents are trees; the text [encoding/json] writes for a tree
      and reads back is not modelled, except that strings are made valid
      UTF-8 on the way.
    - Code of the package that is not part of the two files ([Buffer],
      [Target], [PauseControl]) is either a parameter or a definition marked
      "Modelled from the spec".
    - [SetActiveTarget], [Stop], [Pause] and [Resume] of [service.go] drain
      targets and drive the pause control, which is code outside the two
      files: the methods they call are parameters of [ServiceControl], and
      a goroutine they start is recorded, not run. *)

From Stdlib Require Import ZArith String Ascii List Bool Lia.
From Stdlib Require Import Strings.Byte.
From stdpp Require Import base option list gmap strings.

Local Open Scope string_scope.
Local Open Scope list_scope.
Local Open Scope Z_scope.

(* ===================================================================== *)
(** ** Errors, logging, requests and response writers                     *)
(* ===================================================================== *)

(** Go error values.  The package compares errors against sentinels with
    [==]; a [nil] error is [None]. *)
Inductive error :=
| ErrMaximumSizeExceeded
| ErrNotSupported                 (* http.ErrNotSupported *)
| ErrTargetUnavailable
| ErrInvalidTarget
| ErrOther (msg : string).

#[global] Instance byte_eq_decision : EqDecision byte := byte_eq_dec.

#[global] Instance error_eq_dec : EqDecision error.
Proof. solve_decision. Defined.

Module Slog.

Inductive Level := LevelDebug | LevelInfo | LevelWarn | LevelError.

#[global] Instance Level_eq_dec : EqDecision Level.
Proof. solve_decision. Defined.

Record Record_ := mkRecord {
  level : Level;
  msg   : string;
  attrs : list (string * string)
}.

#[global] Instance Record_eq_dec : EqDecision Record_.
Proof. solve_decision. Defined.

Definition Info (m : string) (a : list (string * string)) : Record_ :=
  mkRecord LevelInfo m a.
Definition Warn (m : string) (a : list (string * string)) : Record_ :=
  mkRecord LevelWarn m a.
Definition Error (m : string) (a : list (string * string)) : Record_ :=
  mkRecord LevelError m a.

End Slog.

Definition errorString (e : error) : string :=
  match e with
  | ErrMaximumSizeExceeded => "maximum size exceeded"
  | ErrNotSupported => "feature not supported"
  | ErrTargetUnavailable => "target unavailable"
  | ErrInvalidTarget => "invalid target"
  | ErrOther m => m
  end.

Module Http.

Definition StatusOK : Z := 200.
Definition StatusMovedPermanently : Z := 301.
Definition StatusInternalServerError : Z := 500.
Definition StatusServiceUnavailable : Z := 503.
Definition StatusGatewayTimeout : Z := 504.

(** *** Request-scoped context

    [context.Context] is a chain of key/value pairs; [Value] returns the
    value of the innermost pair with the given key.  The values the package
    stores are pointers to cells owned by the logging middleware; a pointer
    is the address of its cell in the [Store]. *)

Inductive contextKey := contextKeyService | contextKeyTarget | contextKeyHeaders.

#[global] Instance contextKey_eq_dec : EqDecision contextKey.
Proof. solve_decision. Defined.

Definition loc := nat.

(** A value of type [any], by dynamic type. *)
Inductive any :=
| StringPtr (p : loc)           (* *string   *)
| StringsPtr (p : loc)          (* *[]string *)
| StringVal (s : string)        (* string    *)
| IntVal (n : Z).               (* int       *)

Definition Context := list (contextKey * any).

Fixpoint Value (ctx : Context) (key : contextKey) : option any :=
  match ctx with
  | [] => None
  | (k, v) :: parent => if decide (k = key) then Some v else Value parent key
  end.

Definition WithValue (parent : Context) (key : contextKey) (v : any) : Context :=
  (key, v) :: parent.

(** The type assertions to pointer-to-string and pointer-to-string-slice in
    their comma-ok form; the interface value is [None] when the key is
    absent. *)
Definition asStringPtr (v : option any) : option loc :=
  match v with Some (StringPtr p) => Some p | _ => None end.

Definition asStringsPtr (v : option any) : option loc :=
  match v with Some (StringsPtr p) => Some p | _ => None end.

(** The cells the pointers refer to.  A [[]string] is [None] when it is the
    nil slice. *)
Record Store := mkStore {
  stringCells  : gmap loc string;
  stringsCells : gmap loc (option (list string))
}.

Definition storeString (p : loc) (s : string) (st : Store) : Store :=
  mkStore (<[p := s]> (stringCells st)) (stringsCells st).

Definition storeStrings (p : loc) (l : option (list string)) (st : Store) : Store :=
  mkStore (stringCells st) (<[p := l]> (stringsCells st)).

(** *** Requests *)

Record Request := mkRequest {
  Method     : string;
  Host       : string;
  URL_Path   : string;             (* r.URL.Path *)
  RequestURI : string;             (* r.URL.RequestURI() *)
  UserAgent  : string;
  TLS        : bool;               (* r.TLS != nil *)
  ctx        : Context             (* r.Context() *)
}.

Definition WithContext (r : Request) (c : Context) : Request :=
  mkRequest (Method r) (Host r) (URL_Path r) (RequestURI r) (UserAgent r) (TLS r) c.

(** *** Response writers *)

Inductive Call :=
| HeaderSet (key value : string)          (* w.Header().Set(key, value) *)
| HeaderDel (key : string)                (* w.Header().Del(key) *)
| WriteHeader (code : Z)                  (* w.WriteHeader(code) *)
| Write (data : list byte)                (* w.Write(data) *)
| Hijack                                  (* w.(http.Hijacker).Hijack() *)
| Error (msg : string) (code : Z)         (* http.Error(w, msg, code) *)
| Redirect (method url : string) (code : Z). (* http.Redirect(w, r, url, code) *)

#[global] Instance Call_eq_dec : EqDecision Call.
Proof. solve_decision. Defined.

Record ResponseWriter := mkResponseWriter {
  hijacker  : bool;                (* the dynamic type implements http.Hijacker *)
  hijackErr : option error;        (* the error its Hijack returns *)
  calls     : list Call
}.

Definition call (c : Call) (w : ResponseWriter) : ResponseWriter :=
  mkResponseWriter (hijacker w) (hijackErr w) (calls w ++ [c]).

(** The status line a call commits, if it commits one: the first
    [WriteHeader] fixes the status, a [Write] before any [WriteHeader]
    implies 200, and [http.Error]/[http.Redirect] call [WriteHeader] with
    their code.  [status] reads the calls as made on a connection that the
    server still owns; [received] below accounts for [Hijack]. *)
Definition commits (c : Call) : option Z :=
  match c with
  | WriteHeader code => Some code
  | Write _ => Some StatusOK
  | Error _ code => Some code
  | Redirect _ _ code => Some code
  | HeaderSet _ _ | HeaderDel _ | Hijack => None
  end.

Fixpoint statusOf (cs : list Call) : option Z :=
  match cs with
  | [] => None
  | c :: cs' => match commits c with Some code => Some code | None => statusOf cs' end
  end.

(** Status of the response, [None] while no header has been written. *)
Definition status (w : ResponseWriter) : option Z := statusOf (calls w).

(** *** Hijacked connections

    Once [Hijack] was called the connection belongs to the caller:
    [net/http] marks it hijacked, and every later [WriteHeader] and [Write]
    on the writer, those of [http.Error] and [http.Redirect] included, is
    dropped ([WriteHeader] returns at once, [Write] returns
    [http.ErrHijacked]). *)
Definition isHijack (c : Call) : bool :=
  match c with Hijack => true | _ => false end.

(** [w] has been hijacked. *)
Definition taken (w : ResponseWriter) : bool := existsb isHijack (calls w).

(** The calls the server acts on: those before the first [Hijack]. *)
Fixpoint served (cs : list Call) : list Call :=
  match cs with
  | [] => []
  | c :: cs' => if isHijack c then [] else c :: served cs'
  end.

(** The status line the client receives from the server, [None] when it
    receives none. *)
Definition received (w : ResponseWriter) : option Z := statusOf (served (calls w)).

(** *** Header keys and values as [net/http] stores them *)

Definition byteIn (lo hi : nat) (c : ascii) : bool :=
  ((lo <=? nat_of_ascii c) && (nat_of_ascii c <=? hi))%nat.


Definition toUpper (c : ascii) : ascii :=
  if byteIn 97 122 c then ascii_of_nat (nat_of_ascii c - 32) else c.









End Http.

(* ===================================================================== *)
(** ** The response buffer                                                *)
(* ===================================================================== *)

(** The operations of [*Buffer] that the middleware calls.  [buffer.go] is
    not among the modelled files, so the middleware is stated over any
    implementation of them.  [Buffer_Send] streams to a writer and may fail;
    [Buffer_Write] returns the byte count and the error of [io.Writer]. *)
Class BufferOps (Buffer : Type) := {
  NewBufferedWriteCloser : Z -> Z -> Buffer;     (* maxBytes, maxMemBytes *)
  Buffer_Write : Buffer -> list byte -> Buffer * (Z * option error);
  Buffer_Overflowed : Buffer -> bool;
  Buffer_Send : Buffer -> Http.ResponseWriter -> Buffer * Http.ResponseWriter * option error;
  Buffer_Close : Buffer -> Buffer
}.

Definition len {A} (l : list A) : Z := Z.of_nat (length l).

Module SpecBuffer.

(** Modelled from the spec: the [Buffer] of [buffer.go], which is not among
    the modelled files.  A bounded append-only sink: up to [maxMemBytes] in
    memory, then spilled to a temporary file up to [maxBytes] in total; a
    write that would pass [maxBytes] marks the buffer overflowed, stores
    nothing and returns the overflow error, as does every later write. *)
Record Buffer := mkBuffer {
  maxBytes    : Z;
  maxMemBytes : Z;
  mem         : list byte;             (* the in-memory chunk *)
  file        : option (list byte);    (* the temporary file, once spilled *)
  overflowed  : bool
}.

Definition size (b : Buffer) : Z :=
  len (mem b) + match file b with Some f => len f | None => 0 end.

Definition New (maxBytes maxMemBytes : Z) : Buffer :=
  mkBuffer maxBytes maxMemBytes [] None false.

Definition Write (b : Buffer) (data : list byte) : Buffer * (Z * option error) :=
  if overflowed b then (b, (0, Some ErrMaximumSizeExceeded))
  else if maxBytes b <? size b + len data then
    (mkBuffer (maxBytes b) (maxMemBytes b) (mem b) (file b) true,
     (0, Some ErrMaximumSizeExceeded))
  else
    match file b with
    | Some f =>
        (mkBuffer (maxBytes b) (maxMemBytes b) (mem b) (Some (f ++ data)) false,
         (len data, None))
    | None =>
        if maxMemBytes b <? size b + len data then
          (* spill: flush the in-memory prefix, continue in the file *)
          (mkBuffer (maxBytes b) (maxMemBytes b) [] (Some (mem b ++ data)) false,
           (len data, None))
        else
          (mkBuffer (maxBytes b) (maxMemBytes b) (mem b ++ data) None false,
           (len data, None))
    end.

Definition Overflowed (b : Buffer) : bool := overflowed b.

Definition writeChunk (chunk : list byte) (w : Http.ResponseWriter) : Http.ResponseWriter :=
  match chunk with
  | [] => w
  | _ => Http.call (Http.Write chunk) w
  end.

Definition Send (b : Buffer) (w : Http.ResponseWriter)
  : Buffer * Http.ResponseWriter * option error :=
  if overflowed b then (b, w, Some ErrMaximumSizeExceeded)
  else
    let w1 := writeChunk (mem b) w in
    let w2 := match file b with Some f => writeChunk f w1 | None => w1 end in
    (b, w2, None).

Definition Close (b : Buffer) : Buffer :=
  mkBuffer (maxBytes b) (maxMemBytes b) (mem b) None (overflowed b).

(** What the buffer knows of the bytes written to it so far: once
    overflowed, more than [maxBytes] were written; until then it holds all
    of them and they fit. *)
Definition accounts (b : Buffer) (total : Z) : Prop :=
  if overflowed b then maxBytes b < total
  else size b = total /\ total <= maxBytes b.

#[global] Instance ops : BufferOps Buffer := {
  NewBufferedWriteCloser := New;
  Buffer_Write := Write;
  Buffer_Overflowed := Overflowed;
  Buffer_Send := Send;
  Buffer_Close := Close
}.

End SpecBuffer.

(* ===================================================================== *)
(** ** response_buffer_middleware.go                                      *)
(* ===================================================================== *)

Module ResponseBuffer.
Section Middleware.

Context {Buffer : Type} `{BufferOps Buffer}.

(** [bufferedResponseWriter].  The embedded [http.ResponseWriter] is the
    writer the middleware was given; both names denote one object, so its
    state is kept here and read back by [ServeHTTP]. *)
Record bufferedResponseWriter := mkWriter {
  ResponseWriter : Http.ResponseWriter;
  statusCode     : Z;
  buffer         : Buffer;
  hijacked       : bool
}.

Definition Send (w : bufferedResponseWriter) : bufferedResponseWriter * option error :=
  if Buffer_Overflowed (buffer w) then (w, Some ErrMaximumSizeExceeded)
  else if hijacked w then (w, None)
  else
    let rw := Http.call (Http.WriteHeader (statusCode w)) (ResponseWriter w) in
    let '(b, rw', err) := Buffer_Send (buffer w) rw in
    (mkWriter rw' (statusCode w) b (hijacked w), err).

(** [Header] returns the header map of the underlying writer; a mutation of
    that map is a call on the underlying writer. *)
Definition Header (w : bufferedResponseWriter) (c : Http.Call) : bufferedResponseWriter :=
  mkWriter (Http.call c (ResponseWriter w)) (statusCode w) (buffer w) (hijacked w).

Definition WriteHeader (w : bufferedResponseWriter) (code : Z) : bufferedResponseWriter :=
  mkWriter (ResponseWriter w) code (buffer w) (hijacked w).

Definition Write (w : bufferedResponseWriter) (data : list byte)
  : bufferedResponseWriter * (Z * option error) :=
  let '(b, (n, err)) := Buffer_Write (buffer w) data in
  let w' := mkWriter (ResponseWriter w) (statusCode w) b (hijacked w) in
  if decide (err = Some ErrMaximumSizeExceeded)
  then (w', (len data, None))
  else (w', (n, err)).

(** [Hijack]; of the three results only the error is kept.  When the
    underlying writer is an [http.Hijacker] the writer is marked hijacked and
    the results of the underlying [Hijack] are passed on. *)
Definition Hijack (w : bufferedResponseWriter) : bufferedResponseWriter * option error :=
  if Http.hijacker (ResponseWriter w) then
    (mkWriter (Http.call Http.Hijack (ResponseWriter w)) (statusCode w) (buffer w) true,
     Http.hijackErr (ResponseWriter w))
  else (w, Some ErrNotSupported).

(** *** The downstream handler

    A handler reaches the response only through the writer it is given.
    One run of a handler is the sequence of calls it makes on that writer. *)
Inductive HandlerCall :=
| DoHeaderSet (key value : string)
| DoHeaderDel (key : string)
| DoWriteHeader (code : Z)
| DoWrite (data : list byte)
| DoHijack.

Definition perform (w : bufferedResponseWriter) (c : HandlerCall) : bufferedResponseWriter :=
  match c with
  | DoHeaderSet k v => Header w (Http.HeaderSet k v)
  | DoHeaderDel k => Header w (Http.HeaderDel k)
  | DoWriteHeader code => WriteHeader w code
  | DoWrite data => fst (Write w data)
  | DoHijack => fst (Hijack w)
  end.

Definition runHandler (cs : list HandlerCall) (w : bufferedResponseWriter)
  : bufferedResponseWriter :=
  fold_left perform cs w.

Definition Handler := Http.Request -> list HandlerCall.

(** The number of bytes a run of a handler writes. *)
Definition bytesWritten (cs : list HandlerCall) : Z :=
  fold_right (fun c n => match c with DoWrite data => len data + n | _ => n end) 0 cs.

Record ResponseBufferMiddleware := mkMiddleware {
  maxMemBytes : Z;
  maxBytes    : Z;
  next        : Handler
}.

Definition WithResponseBufferMiddleware (maxMemBytes maxBytes : Z) (next : Handler)
  : ResponseBufferMiddleware :=
  mkMiddleware maxMemBytes maxBytes next.

(** The writer handed to the downstream handler. *)
Definition newWriter (h : ResponseBufferMiddleware) (w : Http.ResponseWriter)
  : bufferedResponseWriter :=
  mkWriter w Http.StatusOK (NewBufferedWriteCloser (maxBytes h) (maxMemBytes h)) false.

Record Served := mkServed {
  writer  : Http.ResponseWriter;       (* the writer, after the request *)
  logged  : list Slog.Record_;         (* records emitted by the middleware *)
  sendErr : option error;              (* what Send returned *)
  closed  : Buffer                     (* the buffer after the deferred Close *)
}.

Definition ServeHTTP (h : ResponseBufferMiddleware) (w : Http.ResponseWriter)
           (r : Http.Request) : Served :=
  let responseWriter := newWriter h w in
  let responseWriter := runHandler (next h r) responseWriter in
  let '(responseWriter, err) := Send responseWriter in
  let w := ResponseWriter responseWriter in
  let responseBuffer := Buffer_Close (buffer responseWriter) in
  match err with
  | Some e =>
      if decide (e = ErrMaximumSizeExceeded) then
        mkServed
          (Http.call (Http.Error "Internal Server Error" Http.StatusInternalServerError) w)
          [Slog.Info "Response exceeded max response limit" [("path", Http.URL_Path r)]]
          err responseBuffer
      else
        mkServed
          (Http.call (Http.Error "Internal Server Error" Http.StatusInternalServerError) w)
          [Slog.Error "Error sending response"
             [("path", Http.URL_Path r); ("error", errorString e)]]
          err responseBuffer
  | None => mkServed w [] err responseBuffer
  end.

End Middleware.
End ResponseBuffer.

(* ===================================================================== *)
(** ** encoding/json on the structs of the package                        *)
(* ===================================================================== *)

(** JSON documents as trees.  [json.Marshal] of a struct yields the object
    whose members are the tagged fields in declaration order, and
    [json.Unmarshal] walks the members of an object in order, storing each
    one whose key names a field and skipping the others.  Numbers are the
    integer literals written for [int64] and [time.Duration] fields.  A
    string of a tree is the byte sequence between the quotes, escapes
    resolved. *)
Module Json.

(** *** Strings: UTF-8

    A Go string is any byte sequence.  [encoding/json] writes and reads
    text: marshalling a string and unquoting a string literal both replace
    each byte that starts no valid UTF-8 encoding by U+FFFD. *)

(** The width of the encoding at the start of [s], after
    [utf8.DecodeRuneInString]; [0] stands for its answer [(RuneError, 1)]
    on a byte that starts no valid encoding, and for the empty string. *)
Definition runeWidth (s : string) : nat :=
  let cont := Http.byteIn 128 191 in
  match s with
  | EmptyString => 0%nat
  | String c0 s1 =>
      if Http.byteIn 0 127 c0 then 1%nat
      else
        match s1 with
        | EmptyString => 0%nat
        | String c1 s2 =>
            if Http.byteIn 194 223 c0 then (if cont c1 then 2%nat else 0%nat)
            else
              match s2 with
              | EmptyString => 0%nat
              | String c2 s3 =>
                  if Http.byteIn 224 224 c0 && Http.byteIn 160 191 c1
                     || Http.byteIn 225 236 c0 && cont c1
                     || Http.byteIn 237 237 c0 && Http.byteIn 128 159 c1
                     || Http.byteIn 238 239 c0 && cont c1
                  then (if cont c2 then 3%nat else 0%nat)
                  else
                    match s3 with
                    | EmptyString => 0%nat
                    | String c3 _ =>
                        if (Http.byteIn 240 240 c0 && Http.byteIn 144 191 c1
                            || Http.byteIn 241 243 c0 && cont c1
                            || Http.byteIn 244 244 c0 && Http.byteIn 128 143 c1)
                           && cont c2 && cont c3
                        then 4%nat else 0%nat
                    end
              end
        end
  end.

(** U+FFFD in UTF-8. *)
Definition replacement (s : string) : string :=
  String "239" (String "191" (String "189" s)).

(** Copy [skip] bytes, then replace each byte that starts no valid
    encoding and copy each valid encoding. *)
Fixpoint toValid (skip : nat) (s : string) : string :=
  match s with
  | EmptyString => EmptyString
  | String c s' =>
      match skip with
      | S k => String c (toValid k s')
      | O =>
          match runeWidth s with
          | O => replacement (toValid 0 s')
          | S k => String c (toValid k s')
          end
      end
  end.

Definition toValidUTF8 (s : string) : string := toValid 0 s.

(** [utf8.ValidString]: nothing to replace. *)
Definition ValidString (s : string) : bool := String.eqb (toValidUTF8 s) s.

(** *** Numbers: [int64] *)

Definition inInt64 (n : Z) : bool :=
  (- 2 ^ 63 <=? n) && (n <=? 2 ^ 63 - 1).

(** *** Object keys

    A member is stored in the field whose name is its key, and for want of
    one in the first field whose name equals the key under case folding.
    [foldName]: ASCII letters in upper case; of the other characters only
    U+212A (Kelvin sign) and U+017F (long s) fold to an ASCII letter, K and
    S.  The remaining bytes are kept, which is exact for the comparison
    with a field name in ASCII, as all names of this package are. *)
Fixpoint foldFrom (skip : nat) (s : string) : string :=
  match s with
  | EmptyString => EmptyString
  | String c s' =>
      match skip with
      | S k => foldFrom k s'
      | O =>
          if String.prefix (String "226" (String "132" (String "170" EmptyString))) s
          then String "K" (foldFrom 2 s')
          else if String.prefix (String "197" (String "191" EmptyString)) s
          then String "S" (foldFrom 1 s')
          else String (Http.toUpper c) (foldFrom 0 s')
      end
  end.

Definition foldName (s : string) : string := foldFrom 0 s.

Definition findField (names : list string) (key : string) : option string :=
  match find (String.eqb key) names with
  | Some n => Some n
  | None => find (fun n => String.eqb (foldName n) (foldName key)) names
  end.

#[local] Unset Elimination Schemes.

Inductive JSON :=
| JNull
| JBool (b : bool)
| JNumber (n : Z)
| JString (s : string)
| JArray (items : list JSON)
| JObject (members : list (string * JSON)).

#[local] Set Elimination Schemes.

(** A type that can be marshalled and unmarshalled.  [zero] is the zero
    value of the type; [decode v old] is [json.Unmarshal] of [v] into a
    variable holding [old]; [None] is a decoding error. *)
Class Codec (A : Type) := {
  zero : A;
  encode : A -> JSON;
  decode : JSON -> A -> option A
}.


(** Decoding the members of an object into a struct with the fields
    [names], one member at a time; [field n v acc] stores [v] in the field
    named [n].  A member whose key matches no field is skipped. *)
Fixpoint decodeMembers {A} (names : list string) (field : string -> JSON -> A -> option A)
         (members : list (string * JSON)) (acc : A) : option A :=
  match members with
  | [] => Some acc
  | (k, v) :: rest =>
      match findField names k with
      | None => decodeMembers names field rest acc
      | Some n =>
          match field n v acc with
          | Some acc' => decodeMembers names field rest acc'
          | None => None
          end
      end
  end.

Definition decodeStruct {A} (names : list string) (field : string -> JSON -> A -> option A)
           (v : JSON) (old : A) : option A :=
  match v with
  | JNull => Some old
  | JObject members => decodeMembers names field members old
  | _ => None
  end.

Definition encodeString (s : string) : JSON := JString (toValidUTF8 s).

Definition decodeString (v : JSON) (old : string) : option string :=
  match v with
  | JNull => Some old
  | JString s => Some (toValidUTF8 s)
  | _ => None
  end.

Definition encodeInt (n : Z) : JSON := JNumber n.

(** A number that does not fit [int64] is a decoding error. *)
Definition decodeInt (v : JSON) (old : Z) : option Z :=
  match v with
  | JNull => Some old
  | JNumber n => if inInt64 n then Some n else None
  | _ => None
  end.

(** [[]string]: the nil slice is written as [null], and [null] is read back
    as the nil slice. *)
Definition encodeStrings (l : option (list string)) : JSON :=
  match l with
  | None => JNull
  | Some items => JArray (map encodeString items)
  end.

Fixpoint decodeItems (items : list JSON) : option (list string) :=
  match items with
  | [] => Some []
  | v :: rest =>
      match decodeString v EmptyString, decodeItems rest with
      | Some s, Some l => Some (s :: l)
      | _, _ => None
      end
  end.

Definition decodeStrings (v : JSON) (old : option (list string))
  : option (option (list string)) :=
  match v with
  | JNull => Some None
  | JArray items =>
      match decodeItems items with
      | Some l => Some (Some l)
      | None => None
      end
  | _ => None
  end.

End Json.

(* ===================================================================== *)
(** ** net.SplitHostPort                                                  *)
(* ===================================================================== *)

Module Net.

Fixpoint IndexByte (s : string) (c : ascii) : option nat :=
  match s with
  | EmptyString => None
  | String a s' =>
      if Ascii.eqb a c then Some 0%nat
      else match IndexByte s' c with Some i => Some (S i) | None => None end
  end.

Fixpoint LastIndexByte (s : string) (c : ascii) : option nat :=
  match s with
  | EmptyString => None
  | String a s' =>
      match LastIndexByte s' c with
      | Some i => Some (S i)
      | None => if Ascii.eqb a c then Some 0%nat else None
      end
  end.

(** [IndexByte(s, c) >= 0]. *)
Definition found (i : option nat) : bool :=
  match i with Some _ => true | None => false end.

(** [s[i:j]] and [s[i:]]. *)
Definition slice (s : string) (i j : nat) : string := substring i (j - i) s.
Definition sliceFrom (s : string) (i : nat) : string :=
  substring i (String.length s - i) s.

Definition addrErr (why : string) : (string * string) + error := inr (ErrOther why).

Definition missingPort : string := "missing port in address".
Definition tooManyColons : string := "too many colons in address".

(** The last two checks of the function: no bracket may remain from
    position [j] (opening) resp. [k] (closing) on. *)
Definition checkBrackets (hostport host : string) (i j k : nat)
  : (string * string) + error :=
  if found (IndexByte (sliceFrom hostport j) "[") then addrErr "unexpected '[' in address"
  else if found (IndexByte (sliceFrom hostport k) "]") then addrErr "unexpected ']' in address"
  else inl (host, sliceFrom hostport (i + 1)).

(** [s[i] == c], false when [i] is out of range. *)
Definition byteIs (s : string) (i : nat) (c : ascii) : bool :=
  match String.get i s with
  | Some a => Ascii.eqb a c
  | None => false
  end.

(** [net.SplitHostPort], after the Go standard library: the port starts
    after the last colon; a host in square brackets loses the brackets. *)
Definition SplitHostPort (hostport : string) : (string * string) + error :=
  match LastIndexByte hostport ":" with
  | None => addrErr missingPort
  | Some i =>
      if byteIs hostport 0 "[" then
        match IndexByte hostport "]" with
        | None => addrErr "missing ']' in address"
        | Some end_ =>
            if (end_ + 1 =? String.length hostport)%nat then addrErr missingPort
            else if (end_ + 1 =? i)%nat then
              checkBrackets hostport (slice hostport 1 end_) i 1 (end_ + 1)
            else if byteIs hostport (end_ + 1) ":" then addrErr tooManyColons
            else addrErr missingPort
        end
      else
        let host := slice hostport 0 i in
        if found (IndexByte host ":") then addrErr tooManyColons
        else checkBrackets hostport host i 0 0
  end.

(** A string without colon and without square bracket. *)
Fixpoint plain (s : string) : bool :=
  match s with
  | EmptyString => true
  | String a s' =>
      negb (Ascii.eqb a ":") && negb (Ascii.eqb a "[") && negb (Ascii.eqb a "]")
      && plain s'
  end.

End Net.

(* ===================================================================== *)
(** ** Collaborators of the Service: PauseControl and Target              *)
(* ===================================================================== *)

Module PauseControl.

Inductive PauseState := PauseStateRunning | PauseStatePaused | PauseStateStopped.

#[global] Instance PauseState_eq_dec : EqDecision PauseState.
Proof. solve_decision. Defined.

Inductive PauseWaitAction :=
| PauseWaitActionProceed
| PauseWaitActionTimedOut
| PauseWaitActionUnavailable.

(** What ends the wait of a caller that blocks on a paused control. *)
Inductive Release := Resumed | Stopped | DeadlineReached.

(** Modelled from the spec: the [PauseControl] of [pause_control.go], which
    is not among the modelled files.  A state in {Running, Paused,
    Stopped}; [Wait] proceeds at once when running, is unavailable at once
    when stopped, and when paused blocks until the control is resumed
    (proceed), stopped (unavailable) or the pause deadline is reached
    (timed out).  [release] is the event that ends a wait started now. *)
Record PauseControl := mkPauseControl {
  state   : PauseState;
  release : Release
}.

Definition NewPauseControl : PauseControl :=
  mkPauseControl PauseStateRunning Resumed.

Definition State (p : PauseControl) : PauseState := state p.

Definition Wait (p : PauseControl) : PauseWaitAction :=
  match state p with
  | PauseStateRunning => PauseWaitActionProceed
  | PauseStateStopped => PauseWaitActionUnavailable
  | PauseStatePaused =>
      match release p with
      | Resumed => PauseWaitActionProceed
      | Stopped => PauseWaitActionUnavailable
      | DeadlineReached => PauseWaitActionTimedOut
      end
  end.

End PauseControl.

Module Target.

Inductive TargetState := TargetStateAdding | TargetStateHealthy | TargetStateDraining.

#[global] Instance TargetState_eq_dec : EqDecision TargetState.
Proof. solve_decision. Defined.

(** Modelled from the spec: the [Target] of [target.go], which is not among
    the modelled files: the upstream address, the options, the health state
    and the number of requests in flight.  [service.go] reads the field
    [options] and assigns the field [state]. *)
Record Target (TargetOptions : Type) := mkTarget {
  address  : string;
  options  : TargetOptions;
  state    : TargetState;
  inflight : Z
}.

Arguments mkTarget {TargetOptions}.
Arguments address {TargetOptions}.
Arguments options {TargetOptions}.
Arguments state {TargetOptions}.
Arguments inflight {TargetOptions}.

Section Methods.

Context {TargetOptions : Type}.

Definition setState (t : Target TargetOptions) (st : TargetState) : Target TargetOptions :=
  mkTarget (address t) (options t) st (inflight t).

Definition setInflight (t : Target TargetOptions) (n : Z) : Target TargetOptions :=
  mkTarget (address t) (options t) (state t) n.

(** Modelled from the spec: [NewTarget].  A target is constructed in state
    Adding for the given address and options.  Which addresses the
    constructor refuses is the parameter [valid]. *)
Definition NewTarget (valid : string -> bool) (targetURL : string)
           (options : TargetOptions) : Target TargetOptions + error :=
  if valid targetURL
  then inl (mkTarget targetURL options TargetStateAdding 0)
  else inr ErrInvalidTarget.


(** Modelled from the spec: [StartRequest].  The receiver is the active
    target of the service, [None] when there is none.  Claiming fails when
    there is no target or the target is draining, and then nothing is
    counted; otherwise the request is counted in flight and the target's
    address is put in the [target] slot of the request context. *)
Definition StartRequest (t : option (Target TargetOptions)) (req : Http.Request)
           (st : Http.Store)
  : option (Target TargetOptions) * Http.Request * Http.Store * option error :=
  match t with
  | None => (None, req, st, Some ErrTargetUnavailable)
  | Some t =>
      if decide (state t = TargetStateDraining)
      then (Some t, req, st, Some ErrTargetUnavailable)
      else
        let st' :=
          match Http.asStringPtr (Http.Value (Http.ctx req) Http.contextKeyTarget) with
          | Some p => Http.storeString p (address t) st
          | None => st
          end in
        (Some (setInflight t (inflight t + 1)), req, st', None)
  end.

End Methods.

End Target.

(* ===================================================================== *)
(** ** service.go                                                         *)
(* ===================================================================== *)

Module Service.

Import Http PauseControl.

Definition B : Z := 1.
Definition KB : Z := Z.shiftl B 10.
Definition MB : Z := Z.shiftl KB 10.
Definition GB : Z := Z.shiftl MB 10.

(** [time.Duration] counts nanoseconds. *)
Definition Second : Z := 1000000000.

Definition DefaultDeployTimeout : Z := Second * 30.
Definition DefaultDrainTimeout : Z := Second * 10.
Definition DefaultPauseTimeout : Z := Second * 30.
Definition DefaultHealthCheckPath : string := "/up".
Definition DefaultHealthCheckInterval : Z := Second.
Definition DefaultHealthCheckTimeout : Z := Second * 5.
Definition MaxIdleConnsPerHost : Z := 100.
Definition ProxyBufferSize : Z := 32 * KB.
Definition DefaultTargetTimeout : Z := Second * 10.
Definition DefaultMaxRequestMemoryBufferSize : Z := 1 * MB.
Definition DefaultMaxRequestBodySize : Z := 1 * GB.

Record HealthCheckConfig := mkHealthCheckConfig {
  Path     : string;
  Interval : Z;
  Timeout  : Z
}.

Record ServiceOptions := mkServiceOptions {
  TLSHostname   : string;
  ACMEDirectory : string;
  ACMECachePath : string;
  LogHeaders    : option (list string)
}.

Definition RequireTLS (so : ServiceOptions) : bool :=
  bool_decide (TLSHostname so <> EmptyString).

(** *** JSON encodings given by the struct tags *)

Definition HealthCheckConfig_field (k : string) (v : Json.JSON) (c : HealthCheckConfig)
  : option HealthCheckConfig :=
  if String.eqb k "path" then
    match Json.decodeString v (Path c) with
    | Some x => Some (mkHealthCheckConfig x (Interval c) (Timeout c))
    | None => None
    end
  else if String.eqb k "interval" then
    match Json.decodeInt v (Interval c) with
    | Some x => Some (mkHealthCheckConfig (Path c) x (Timeout c))
    | None => None
    end
  else if String.eqb k "timeout" then
    match Json.decodeInt v (Timeout c) with
    | Some x => Some (mkHealthCheckConfig (Path c) (Interval c) x)
    | None => None
    end
  else Some c.

#[global] Instance HealthCheckConfig_codec : Json.Codec HealthCheckConfig := {
  zero := mkHealthCheckConfig EmptyString 0 0;
  encode c :=
    Json.JObject [("path", Json.encodeString (Path c));
                  ("interval", Json.encodeInt (Interval c));
                  ("timeout", Json.encodeInt (Timeout c))];
  decode := Json.decodeStruct ["path"; "interval"; "timeout"] HealthCheckConfig_field
}.

Definition ServiceOptions_field (k : string) (v : Json.JSON) (so : ServiceOptions)
  : option ServiceOptions :=
  if String.eqb k "tls_hostname" then
    match Json.decodeString v (TLSHostname so) with
    | Some x => Some (mkServiceOptions x (ACMEDirectory so) (ACMECachePath so) (LogHeaders so))
    | None => None
    end
  else if String.eqb k "acme_directory" then
    match Json.decodeString v (ACMEDirectory so) with
    | Some x => Some (mkServiceOptions (TLSHostname so) x (ACMECachePath so) (LogHeaders so))
    | None => None
    end
  else if String.eqb k "acme_cache_path" then
    match Json.decodeString v (ACMECachePath so) with
    | Some x => Some (mkServiceOptions (TLSHostname so) (ACMEDirectory so) x (LogHeaders so))
    | None => None
    end
  else if String.eqb k "log_headers" then
    match Json.decodeStrings v (LogHeaders so) with
    | Some x => Some (mkServiceOptions (TLSHostname so) (ACMEDirectory so) (ACMECachePath so) x)
    | None => None
    end
  else Some so.

#[global] Instance ServiceOptions_codec : Json.Codec ServiceOptions := {
  zero := mkServiceOptions EmptyString EmptyString EmptyString None;
  encode so :=
    Json.JObject [("tls_hostname", Json.encodeString (TLSHostname so));
                  ("acme_directory", Json.encodeString (ACMEDirectory so));
                  ("acme_cache_path", Json.encodeString (ACMECachePath so));
                  ("log_headers", Json.encodeStrings (LogHeaders so))];
  decode := Json.decodeStruct ["tls_hostname"; "acme_directory"; "acme_cache_path";
                               "log_headers"]
                              ServiceOptions_field
}.


(** The fields of [autocert.Manager] that [createCertManager] fills in. *)
Record CertManager := mkCertManager {
  Cache        : string;        (* autocert.DirCache(path) *)
  HostPolicy   : string;        (* autocert.HostWhitelist(host) *)
  DirectoryURL : string         (* acme.Client.DirectoryURL *)
}.

Section WithTarget.

Context {TargetOptions : Type} `{Json.Codec TargetOptions}.

(** Parameters: what lies outside the modelled files and is not fixed by
    the spec either.
    - [validTargetAddress]: the addresses [NewTarget] accepts;
    - [IsHealthCheckRequest]: the method of that name of [*Target], on the
      active target ([None] when the service has none);
    - [roundTrip]: what the reverse proxy of a target writes to the
      response writer for a request it forwards;
    - [sha256Hex]: the hex encoding of the SHA-256 digest of a string;
    - [pathJoin]: [path.Join] of two elements. *)
Variable validTargetAddress : string -> bool.
Variable IsHealthCheckRequest : option (Target.Target TargetOptions) -> Request -> bool.
Variable roundTrip : Target.Target TargetOptions -> Request -> list Call.
Variable sha256Hex : string -> string.
Variable pathJoin : string -> string -> string.

Definition ScopedCachePath (so : ServiceOptions) : string :=
  let hash := sha256Hex (ACMEDirectory so) in
  pathJoin (ACMECachePath so) hash.

(** [Service]; [targetLock] guards [active] and has no state of its own in
    a sequential run. *)
Record Service := mkService {
  name         : string;
  host         : string;
  options      : ServiceOptions;
  active       : option (Target.Target TargetOptions);
  pauseControl : PauseControl;
  certManager  : option CertManager
}.

Definition createCertManager (s : Service) : option CertManager :=
  if decide (TLSHostname (options s) = EmptyString) then None
  else Some (mkCertManager (ScopedCachePath (options s))
                           (TLSHostname (options s))
                           (ACMEDirectory (options s))).

Definition initialize (s : Service) : Service :=
  let s := mkService (name s) (host s) (options s) (active s)
                     NewPauseControl (certManager s) in
  mkService (name s) (host s) (options s) (active s)
            (pauseControl s) (createCertManager s).

(** [NewService]; the fields the literal leaves out are overwritten by
    [initialize] ([pauseControl], [certManager]) or nil ([active]). *)
Definition NewService (name' host' : string) (options' : ServiceOptions) : Service :=
  initialize (mkService name' host' options' None NewPauseControl None).

Definition UpdateOptions (s : Service) (options' : ServiceOptions) : Service :=
  let s := mkService (name s) (host s) options' (active s)
                     (pauseControl s) (certManager s) in
  mkService (name s) (host s) (options s) (active s)
            (pauseControl s) (createCertManager s).

Definition ActiveTarget (s : Service) : option (Target.Target TargetOptions) :=
  active s.

(** *** Serving a request

    The state a request runs in: the service, the response writer of the
    request, the cells behind the context slots, the log, and the
    requests forwarded upstream (address of the target, request). *)
Record World := mkWorld {
  service  : Service;
  writer   : ResponseWriter;
  store    : Store;
  log      : list Slog.Record_;
  upstream : list (string * Request)
}.

Definition M (A : Type) : Type := World -> A * World.

#[local] Instance M_ret : MRet M := fun A a σ => (a, σ).
#[local] Instance M_bind : MBind M :=
  fun A B k m σ => let '(a, σ') := m σ in k a σ'.

Definition getService : M Service := fun σ => (service σ, σ).
Definition getStore : M Store := fun σ => (store σ, σ).

Definition setService (s : Service) : M unit :=
  fun σ => (tt, mkWorld s (writer σ) (store σ) (log σ) (upstream σ)).
Definition setStore (st : Store) : M unit :=
  fun σ => (tt, mkWorld (service σ) (writer σ) st (log σ) (upstream σ)).
(** A call on the response writer [w]. *)
Definition onWriter (c : Call) : M unit :=
  fun σ => (tt, mkWorld (service σ) (call c (writer σ)) (store σ) (log σ) (upstream σ)).
Definition slog (rec : Slog.Record_) : M unit :=
  fun σ => (tt, mkWorld (service σ) (writer σ) (store σ) (log σ ++ [rec]) (upstream σ)).
Definition forward (addr : string) (req : Request) : M unit :=
  fun σ => (tt, mkWorld (service σ) (writer σ) (store σ) (log σ)
                        (upstream σ ++ [(addr, req)])).

Definition setActive (s : Service) (t : option (Target.Target TargetOptions)) : Service :=
  mkService (name s) (host s) (options s) t (pauseControl s) (certManager s).

(** [ClaimTarget].  The target returned is the object [s.active] points
    to, as [StartRequest] left it. *)
Definition ClaimTarget (req : Request)
  : M (option (Target.Target TargetOptions) * Request * option error) :=
  s ← getService;
  st ← getStore;
  let '(t, req, st', err) := Target.StartRequest (active s) req st in
  setService (setActive s t);;
  setStore st';;
  mret (t, req, err).

(** Modelled from the spec: [SendRequest] of [*Target].  The request is
    proxied to the upstream, whose answer the reverse proxy writes to the
    response writer, and is then no longer in flight.  A nil target with a
    nil error does not come out of [StartRequest]. *)
Definition SendRequest (target : option (Target.Target TargetOptions)) (req : Request)
  : M unit :=
  match target with
  | None => mret tt
  | Some t =>
      forward (Target.address t) req;;
      (fun σ => (tt, mkWorld (service σ)
                             (mkResponseWriter (hijacker (writer σ)) (hijackErr (writer σ))
                                               (calls (writer σ) ++ roundTrip t req))
                             (store σ) (log σ) (upstream σ)));;
      s ← getService;
      setService (setActive s (Some (Target.setInflight t (Target.inflight t - 1))))
  end.

Definition recordServiceNameForRequest (req : Request) : M unit :=
  s ← getService;
  match asStringPtr (Value (ctx req) contextKeyService) with
  | Some serviceIdentifer =>
      st ← getStore; setStore (storeString serviceIdentifer (name s) st)
  | None => mret tt
  end.

Definition recordHeadersForRequest (req : Request) : M unit :=
  s ← getService;
  match asStringsPtr (Value (ctx req) contextKeyHeaders) with
  | Some headers =>
      st ← getStore; setStore (storeStrings headers (LogHeaders (options s)) st)
  | None => mret tt
  end.

(** The host of the redirect: [r.Host] without its port when
    [net.SplitHostPort] can split it, [r.Host] itself otherwise. *)
Definition redirectHost (rHost : string) : string :=
  match Net.SplitHostPort rHost with
  | inl (host, _) => host
  | inr _ => rHost
  end.

Definition redirectToHTTPS (r : Request) : M unit :=
  onWriter (HeaderSet "Connection" "close");;
  let host := redirectHost (Host r) in
  let url := "https://" +:+ host +:+ RequestURI r in
  onWriter (Redirect (Method r) url StatusMovedPermanently).

Definition handlePausedAndStoppedRequests (r : Request) : M bool :=
  s ← getService;
  if bool_decide (State (pauseControl s) <> PauseStateRunning)
     && IsHealthCheckRequest (ActiveTarget s) r
  then
    onWriter (WriteHeader StatusOK);;
    mret true
  else
    match Wait (pauseControl s) with
    | PauseWaitActionUnavailable =>
        onWriter (WriteHeader StatusServiceUnavailable);;
        mret true
    | PauseWaitActionTimedOut =>
        slog (Slog.Warn "Rejecting request due to expired pause"
                        [("service", name s); ("path", URL_Path r)]);;
        onWriter (WriteHeader StatusGatewayTimeout);;
        mret true
    | PauseWaitActionProceed => mret false
    end.

Definition ServeHTTP (r : Request) : M unit :=
  recordServiceNameForRequest r;;
  recordHeadersForRequest r;;
  s ← getService;
  if RequireTLS (options s) && negb (TLS r) then redirectToHTTPS r
  else
    handled ← handlePausedAndStoppedRequests r;
    if handled : bool then mret tt
    else
      '(target, req, err) ← ClaimTarget r;
      match err with
      | Some _ => onWriter (Error "Service not available" StatusServiceUnavailable)
      | None => SendRequest target req
      end.

(** Names for the rest of [ServeHTTP] from a given step on: from the
    claim of the target, and from the TLS check. *)
Definition claimAndSend (r : Request) : M unit :=
  '(target, req, err) ← ClaimTarget r;
  match err with
  | Some _ => onWriter (Error "Service not available" StatusServiceUnavailable)
  | None => SendRequest target req
  end.

Definition serve (r : Request) : M unit :=
  s ← getService;
  if RequireTLS (options s) && negb (TLS r) then redirectToHTTPS r
  else
    handled ← handlePausedAndStoppedRequests r;
    if handled : bool then mret tt
    else claimAndSend r.

(** The world after the two recording steps of [ServeHTTP]. *)
Definition recorded (r : Request) (σ : World) : World :=
  snd (recordHeadersForRequest r (snd (recordServiceNameForRequest r σ))).

(** *** Serialization *)

Record marshalledService := mkMarshalledService {
  msName          : string;              (* Name,          "name" *)
  msHost          : string;              (* Host,          "host" *)
  msActiveTarget  : string;              (* ActiveTarget,  "active_target" *)
  msOptions       : ServiceOptions;      (* Options,       "options" *)
  msTargetOptions : TargetOptions        (* TargetOptions, "target_options" *)
}.

Definition marshalledService_field (k : string) (v : Json.JSON) (ms : marshalledService)
  : option marshalledService :=
  if String.eqb k "name" then
    match Json.decodeString v (msName ms) with
    | Some x => Some (mkMarshalledService x (msHost ms) (msActiveTarget ms)
                                          (msOptions ms) (msTargetOptions ms))
    | None => None
    end
  else if String.eqb k "host" then
    match Json.decodeString v (msHost ms) with
    | Some x => Some (mkMarshalledService (msName ms) x (msActiveTarget ms)
                                          (msOptions ms) (msTargetOptions ms))
    | None => None
    end
  else if String.eqb k "active_target" then
    match Json.decodeString v (msActiveTarget ms) with
    | Some x => Some (mkMarshalledService (msName ms) (msHost ms) x
                                          (msOptions ms) (msTargetOptions ms))
    | None => None
    end
  else if String.eqb k "options" then
    match Json.decode v (msOptions ms) with
    | Some x => Some (mkMarshalledService (msName ms) (msHost ms) (msActiveTarget ms)
                                          x (msTargetOptions ms))
    | None => None
    end
  else if String.eqb k "target_options" then
    match Json.decode v (msTargetOptions ms) with
    | Some x => Some (mkMarshalledService (msName ms) (msHost ms) (msActiveTarget ms)
                                          (msOptions ms) x)
    | None => None
    end
  else Some ms.

#[local] Instance marshalledService_codec : Json.Codec marshalledService := {
  zero := mkMarshalledService EmptyString EmptyString EmptyString Json.zero Json.zero;
  encode ms :=
    Json.JObject [("name", Json.encodeString (msName ms));
                  ("host", Json.encodeString (msHost ms));
                  ("active_target", Json.encodeString (msActiveTarget ms));
                  ("options", Json.encode (msOptions ms));
                  ("target_options", Json.encode (msTargetOptions ms))];
  decode := Json.decodeStruct ["name"; "host"; "active_target"; "options";
                               "target_options"]
                              marshalledService_field
}.



Definition UnmarshalJSON (s : Service) (data : Json.JSON) : Service * option error :=
  match Json.decode data (Json.zero : marshalledService) with
  | None => (s, Some (ErrOther "json: cannot unmarshal"))
  | Some ms =>
      let s := mkService (msName ms) (host s) (options s) (active s)
                         (pauseControl s) (certManager s) in
      let s := mkService (name s) (msHost ms) (options s) (active s)
                         (pauseControl s) (certManager s) in
      let s := mkService (name s) (host s) (msOptions ms) (active s)
                         (pauseControl s) (certManager s) in
      match Target.NewTarget validTargetAddress (msActiveTarget ms) (msTargetOptions ms) with
      | inr err => (s, Some err)
      | inl active' =>
          (* Restored targets are always considered healthy *)
          let active' := Target.setState active' Target.TargetStateHealthy in
          let s := setActive s (Some active') in
          (initialize s, None)
      end
  end.

End WithTarget.
End Service.

(* ===================================================================== *)
(** ** Scenarios                                                          *)
(* ===================================================================== *)

(** Concrete services, requests and handlers, after the end-to-end scenarios
    of the spec (S3, S4, S6); the theorems below are run on them. *)
Module Scenario.

Import Http.

Definition bytes (s : string) : list byte := list_byte_of_string s.

(** *** Response buffering (S6): a limit of 1024 bytes, 2000 written *)

Definition body2000 : list byte := repeat x00 2000.

Definition bigHandler : ResponseBuffer.Handler :=
  fun _ => [ResponseBuffer.DoWriteHeader 200; ResponseBuffer.DoWrite body2000].

(** A handler that writes too much and then takes over the connection. *)
Definition upgradingHandler : ResponseBuffer.Handler :=
  fun _ => [ResponseBuffer.DoWrite body2000; ResponseBuffer.DoHijack].

Definition limited (next : ResponseBuffer.Handler) : ResponseBuffer.ResponseBufferMiddleware :=
  ResponseBuffer.WithResponseBufferMiddleware 512 1024 next.

(** The writer of a server connection: fresh, and an [http.Hijacker]. *)
Definition conn : ResponseWriter := mkResponseWriter true None [].

(** A fresh writer that is no [http.Hijacker], as that of an HTTP/2
    stream. *)
Definition stream : ResponseWriter := mkResponseWriter false None [].

(** A handler whose response fits the buffer. *)
Definition smallHandler : ResponseBuffer.Handler :=
  fun _ => [ResponseBuffer.DoHeaderSet "Content-Type" "text/plain";
            ResponseBuffer.DoWriteHeader 201;
            ResponseBuffer.DoWrite (bytes "hello")].

(** A handler that upgrades the connection without writing. *)
Definition websocketHandler : ResponseBuffer.Handler :=
  fun _ => [ResponseBuffer.DoHeaderSet "Upgrade" "websocket"; ResponseBuffer.DoHijack].

Definition get (path : string) : Request :=
  mkRequest "GET" "app.example.com:8080" path path "Robot/1" false [].

(** *** The service *)

(** The options of a target, here its health check configuration. *)
Definition TargetOptions := Service.HealthCheckConfig.

Definition proberUserAgent : string := "prober".

(** Modelled from the spec: [IsHealthCheckRequest] of [*Target]: the method
    is GET, the path is the configured health check path and the user agent
    is that of the internal prober.  The spec does not name that user agent
    ([proberUserAgent] stands for it) and says nothing of a service without
    a target, for which no path is configured. *)
Definition IsHealthCheckRequest (t : option (Target.Target TargetOptions)) (r : Request)
  : bool :=
  match t with
  | None => false
  | Some t =>
      String.eqb (Method r) "GET"
      && String.eqb (URL_Path r) (Service.Path (Target.options t))
      && String.eqb (UserAgent r) proberUserAgent
  end.

(** The upstream answers every request with 200 and a short body. *)
Definition roundTrip (t : Target.Target TargetOptions) (r : Request) : list Call :=
  [WriteHeader StatusOK; Write (bytes "hello")].

Definition validTargetAddress (a : string) : bool := negb (String.eqb a EmptyString).

(** Stand-ins for the digest and for [path.Join]; only the cache directory
    of the certificate manager depends on them. *)
Definition sha256Hex (s : string) : string := "sha256-of-" +:+ s.
Definition pathJoin (a b : string) : string := a +:+ "/" +:+ b.

Definition healthCheck : TargetOptions :=
  Service.mkHealthCheckConfig Service.DefaultHealthCheckPath
                              Service.DefaultHealthCheckInterval
                              Service.DefaultHealthCheckTimeout.

Definition upstream3000 (st : Target.TargetState) : Target.Target TargetOptions :=
  Target.mkTarget "upstream:3000" healthCheck st 0.

Definition plainOptions : Service.ServiceOptions :=
  Service.mkServiceOptions EmptyString EmptyString EmptyString (Some ["X-Version"]).

Definition tlsOptions : Service.ServiceOptions :=
  Service.mkServiceOptions "app.example.com" "https://acme.example/directory"
                           "/var/cache/acme" None.

Definition myapp (options : Service.ServiceOptions)
           (active : option (Target.Target TargetOptions))
           (pc : PauseControl.PauseControl) : @Service.Service TargetOptions :=
  Service.mkService "myapp" "app.example.com" options active pc
                    (Service.createCertManager sha256Hex pathJoin
                       (Service.mkService "myapp" "app.example.com" options active pc None)).

Definition running : PauseControl.PauseControl := PauseControl.NewPauseControl.
Definition pausedUntil (e : PauseControl.Release) : PauseControl.PauseControl :=
  PauseControl.mkPauseControl PauseControl.PauseStatePaused e.
Definition stopped : PauseControl.PauseControl :=
  PauseControl.mkPauseControl PauseControl.PauseStateStopped PauseControl.Stopped.

(** The cells the logging middleware allocates, and a context pointing to
    them. *)
Definition cells : Store := mkStore {[ 1%nat := EmptyString; 2%nat := EmptyString ]}
                                    {[ 3%nat := None ]}.

Definition loggingContext : Context :=
  [(contextKeyService, StringPtr 1%nat); (contextKeyTarget, StringPtr 2%nat);
   (contextKeyHeaders, StringsPtr 3%nat)].

Definition probe : Request :=
  mkRequest "GET" "app.example.com" "/up" "/up" proberUserAgent false loggingContext.

Definition home : Request :=
  mkRequest "GET" "app.example.com:8080" "/" "/?q=ok" "Robot/1" false loggingContext.


(** A request that does not come through the logging middleware: the
    [service] key is absent and the [headers] key holds a string. *)
Definition bare : Request :=
  mkRequest "GET" "app.example.com" "/" "/" "Robot/1" false
            [(contextKeyHeaders, StringVal "X-Version")].

Definition world (s : @Service.Service TargetOptions) : @Service.World TargetOptions :=
  Service.mkWorld s conn cells [] [].



(** The state file of [myapp] with the given options and target address. *)
Definition saved (options : Service.ServiceOptions) (address : string) : Json.JSON :=
  Json.encode (Codec := Service.marshalledService_codec (TargetOptions := TargetOptions))
              (Service.mkMarshalledService "myapp" "app.example.com" address options
                                           healthCheck).

End Scenario.

(* ===================================================================== *)
(** ** Runs of a downstream handler                                       *)
(* ===================================================================== *)

(** What a run of a handler amounts to, read off the calls it makes. *)
Module HandlerRun.

Import ResponseBuffer.

(** The calls that reach the underlying writer during the run: header
    mutations, and [Hijack] when the underlying writer is an
    [http.Hijacker]. *)
Definition passedOn (hijacker : bool) (c : HandlerCall) : list Http.Call :=
  match c with
  | DoHeaderSet k v => [Http.HeaderSet k v]
  | DoHeaderDel k => [Http.HeaderDel k]
  | DoHijack => if hijacker then [Http.Hijack] else []
  | DoWriteHeader _ | DoWrite _ => []
  end.

Definition underlyingCalls (hijacker : bool) (cs : list HandlerCall) : list Http.Call :=
  flat_map (passedOn hijacker) cs.

(** The status of the last [WriteHeader] of the run, [init] when there is
    none. *)
Definition lastStatus (init : Z) (cs : list HandlerCall) : Z :=
  fold_left (fun st c => match c with DoWriteHeader code => code | _ => st end) cs init.

Definition isHijack (c : HandlerCall) : bool :=
  match c with DoHijack => true | _ => false end.

Definition calledHijack (cs : list HandlerCall) : bool := existsb isHijack cs.

End HandlerRun.

(* ===================================================================== *)
(** ** service.go: swapping, stopping, pausing and resuming               *)
(* ===================================================================== *)

Module ServiceControl.

Import Http PauseControl Service.

Section WithControl.

Context {TargetOptions : Type}.

(** Parameters: the methods of [*PauseControl] and [*Target] that these
    functions call; they belong to files outside the two modelled ones.
    - [pcStop], [pcPause], [pcResume]: [Stop], [Pause] and [Resume] of the
      pause control, with the control as they leave it and their error;
    - [StopHealthChecks]: the target as that method leaves it;
    - [Drain]: the target as [Drain] leaves it when it returns; the receiver
      is [None] when the service has no active target. *)
Variable pcStop : PauseControl -> PauseControl * option error.
Variable pcPause : PauseControl -> Z -> PauseControl * option error.
Variable pcResume : PauseControl -> PauseControl * option error.
Variable StopHealthChecks : Target.Target TargetOptions -> Target.Target TargetOptions.
Variable Drain : option (Target.Target TargetOptions) -> Z ->
                 option (Target.Target TargetOptions).

Definition setPauseControl (s : @Service.Service TargetOptions) (pc : PauseControl)
  : @Service.Service TargetOptions :=
  mkService (name s) (host s) (options s) (active s) pc (certManager s).

(** [SetActiveTarget].  The second component lists the goroutines started:
    [Drain(drainTimeout)] on the target that was active, after its health
    checks were stopped.  [target] is [None] for a nil pointer. *)
Definition SetActiveTarget (s : @Service.Service TargetOptions)
           (target : option (Target.Target TargetOptions)) (drainTimeout : Z)
  : @Service.Service TargetOptions * list (Target.Target TargetOptions * Z) :=
  match active s with
  | Some old => (setActive s target, [(StopHealthChecks old, drainTimeout)])
  | None => (setActive s target, [])
  end.

(** A sequence of deployments: each target is made active in turn. *)
Fixpoint deploy (s : @Service.Service TargetOptions)
         (targets : list (option (Target.Target TargetOptions))) (drainTimeout : Z)
  : @Service.Service TargetOptions * list (Target.Target TargetOptions * Z) :=
  match targets with
  | [] => (s, [])
  | t :: rest =>
      let '(s1, started) := SetActiveTarget s t drainTimeout in
      let '(s2, started') := deploy s1 rest drainTimeout in
      (s2, started ++ started')
  end.

(** What the control operations leave alone. *)
Definition sameConfiguration (s s' : @Service.Service TargetOptions) : Prop :=
  name s' = name s /\ host s' = host s /\ options s' = options s /\
  certManager s' = certManager s.

(** The result of a control operation: the service, the log and the error
    returned. *)
Definition Outcome : Type :=
  @Service.Service TargetOptions * list Slog.Record_ * option error.

Definition Stop (s : @Service.Service TargetOptions) (drainTimeout : Z)
           (lg : list Slog.Record_) : Outcome :=
  let '(pc, err) := pcStop (pauseControl s) in
  let s := setPauseControl s pc in
  match err with
  | Some e => (s, lg, Some e)
  | None =>
      let lg := lg ++ [Slog.Info "Service stopped" [("service", name s)]] in
      let s := setActive s (Drain (ActiveTarget s) drainTimeout) in
      let lg := lg ++ [Slog.Info "Service drained" [("service", name s)]] in
      (s, lg, None)
  end.

Definition Pause (s : @Service.Service TargetOptions) (drainTimeout pauseTimeout : Z)
           (lg : list Slog.Record_) : Outcome :=
  let '(pc, err) := pcPause (pauseControl s) pauseTimeout in
  let s := setPauseControl s pc in
  match err with
  | Some e => (s, lg, Some e)
  | None =>
      let lg := lg ++ [Slog.Info "Service paused" [("service", name s)]] in
      let s := setActive s (Drain (ActiveTarget s) drainTimeout) in
      let lg := lg ++ [Slog.Info "Service drained" [("service", name s)]] in
      (s, lg, None)
  end.

Definition Resume (s : @Service.Service TargetOptions) (lg : list Slog.Record_) : Outcome :=
  let '(pc, err) := pcResume (pauseControl s) in
  let s := setPauseControl s pc in
  match err with
  | Some e => (s, lg, Some e)
  | None => (s, lg ++ [Slog.Info "Service resumed" [("service", name s)]], None)
  end.

End WithControl.

End ServiceControl.

(** Collaborators of the control operations, for the runs below. *)
Module SpecControl.

Import PauseControl.

Definition badState : error := ErrOther "bad state".

(** Modelled from the spec: [Pause], [Resume] and [Stop] of the pause
    control.  [Pause] succeeds only from Running; [Resume] takes Paused to
    Running, does nothing from Running and fails from Stopped; [Stop] takes
    Running and Paused to Stopped.  The spec does not say what [Stop] does to
    a stopped control; here it fails. *)
Definition Pause (p : PauseControl) (timeout : Z) : PauseControl * option error :=
  match state p with
  | PauseStateRunning => (mkPauseControl PauseStatePaused (release p), None)
  | _ => (p, Some badState)
  end.

Definition Resume (p : PauseControl) : PauseControl * option error :=
  match state p with
  | PauseStatePaused => (mkPauseControl PauseStateRunning (release p), None)
  | PauseStateRunning => (p, None)
  | PauseStateStopped => (p, Some badState)
  end.

Definition Stop (p : PauseControl) : PauseControl * option error :=
  match state p with
  | PauseStateStopped => (p, Some badState)
  | _ => (mkPauseControl PauseStateStopped (release p), None)
  end.

(** Modelled from the spec: [StopHealthChecks] halts the health check loop,
    which is no part of the target's data here, and [Drain] marks the target
    Draining and returns when no request is in flight any more. *)
Definition StopHealthChecks {TargetOptions : Type} (t : Target.Target TargetOptions)
  : Target.Target TargetOptions := t.

Definition Drain {TargetOptions : Type} (t : option (Target.Target TargetOptions))
           (timeout : Z) : option (Target.Target TargetOptions) :=
  match t with
  | Some t => Some (Target.mkTarget (Target.address t) (Target.options t)
                                    Target.TargetStateDraining 0)
  | None => None
  end.

End SpecControl.

(* ===================================================================== *)
(** * Properties                                                          *)
(* ===================================================================== *)

(** ** Response writers *)

Module HttpFacts.

Import Http.

Lemma statusOf_app (cs cs' : list Call) :
  statusOf (cs ++ cs') =
  match statusOf cs with Some code => Some code | None => statusOf cs' end.
Proof.
  induction cs as [|c cs IH]; simpl; [reflexivity|].
  destruct (commits c); [reflexivity|exact IH].
Qed.

Lemma status_call (c : Call) (w : ResponseWriter) :
  status (call c w) =
  match status w with Some code => Some code | None => commits c end.
Proof.
  unfold status, call; simpl. rewrite statusOf_app. simpl.
  destruct (statusOf (calls w)); [reflexivity|]. destruct (commits c); reflexivity.
Qed.

Lemma status_call_silent (c : Call) (w : ResponseWriter) :
  commits c = None -> status (call c w) = status w.
Proof. intros Hc. rewrite status_call, Hc. destruct (status w); reflexivity. Qed.

Lemma hijacker_call (c : Call) (w : ResponseWriter) :
  hijacker (call c w) = hijacker w.
Proof. reflexivity. Qed.



End HttpFacts.

(** ** net.SplitHostPort on plain hosts *)

Module NetFacts.

Import Net.

Lemma plain_cons (a : ascii) (s : string) :
  plain (String a s) = true ->
  Ascii.eqb a ":" = false /\ Ascii.eqb a "[" = false /\ Ascii.eqb a "]" = false /\
  plain s = true.
Proof.
  simpl. rewrite !andb_true_iff, !negb_true_iff. tauto.
Qed.

Lemma IndexByte_plain (s : string) (c : ascii) :
  plain s = true -> c = ":"%char \/ c = "["%char \/ c = "]"%char ->
  IndexByte s c = None.
Proof.
  intros Hp Hc. induction s as [|a s IH]; [reflexivity|].
  apply plain_cons in Hp as (H1 & H2 & H3 & Hp).
  simpl. rewrite (IH Hp).
  destruct Hc as [->|[->| ->]]; rewrite ?H1, ?H2, ?H3; reflexivity.
Qed.

Lemma LastIndexByte_None (s : string) (c : ascii) :
  IndexByte s c = None -> LastIndexByte s c = None.
Proof.
  induction s as [|a s IH]; simpl; [reflexivity|].
  destruct (Ascii.eqb a c); [discriminate|].
  destruct (IndexByte s c); [discriminate|]. intros _. rewrite IH; reflexivity.
Qed.

Lemma IndexByte_app_None (s t : string) (c : ascii) :
  IndexByte s c = None -> IndexByte t c = None -> IndexByte (s +:+ t) c = None.
Proof.
  intros Hs Ht. induction s as [|a s IH]; simpl in *; [exact Ht|].
  destruct (Ascii.eqb a c); [discriminate|].
  destruct (IndexByte s c); [discriminate|]. rewrite IH; reflexivity.
Qed.

Lemma LastIndexByte_app (s t : string) (c : ascii) :
  LastIndexByte t c = None ->
  LastIndexByte (s +:+ String c t) c = Some (String.length s).
Proof.
  intros Ht. induction s as [|a s IH]; simpl.
  - rewrite Ht, Ascii.eqb_refl. reflexivity.
  - rewrite IH. reflexivity.
Qed.

Lemma substring_prefix (s t : string) :
  substring 0 (String.length s) (s +:+ t) = s.
Proof.
  induction s as [|a s IH]; simpl.
  - destruct t; reflexivity.
  - rewrite IH. reflexivity.
Qed.

Lemma substring_all (s : string) : substring 0 (String.length s) s = s.
Proof.
  induction s as [|a s IH]; simpl; [reflexivity|]. rewrite IH. reflexivity.
Qed.

Lemma substring_skip (s t : string) (n : nat) :
  substring (String.length s) n (s +:+ t) = substring 0 n t.
Proof. induction s as [|a s IH]; simpl; [reflexivity|exact IH]. Qed.

Lemma length_app (s t : string) :
  String.length (s +:+ t) = (String.length s + String.length t)%nat.
Proof. induction s as [|a s IH]; simpl; [reflexivity|]. rewrite IH. reflexivity. Qed.

Lemma append_byte (s t : string) (c : ascii) :
  (s +:+ String c EmptyString) +:+ t = s +:+ String c t.
Proof.
  induction s as [|a s IH]; [reflexivity|].
  change (String a ((s +:+ String c EmptyString) +:+ t) = String a (s +:+ String c t)).
  rewrite IH. reflexivity.
Qed.

Lemma byteIs_first_plain (s t : string) (c : ascii) :
  plain s = true -> byteIs (s +:+ String ":" t) 0 "[" = false.
Proof.
  intros Hp. destruct s as [|a s]; [reflexivity|].
  apply plain_cons in Hp as (_ & H2 & _). unfold byteIs. simpl. exact H2.
Qed.

(** A plain host followed by a colon and a plain port is split at the
    colon. *)
Lemma SplitHostPort_host_port (h p : string) :
  plain h = true -> plain p = true ->
  SplitHostPort (h +:+ ":" +:+ p) = inl (h, p).
Proof.
  intros Hh Hp. unfold SplitHostPort.
  change (h +:+ ":" +:+ p) with (h +:+ String ":" p).
  rewrite LastIndexByte_app
    by (apply LastIndexByte_None, IndexByte_plain; auto).
  rewrite (byteIs_first_plain h p ":" Hh).
  unfold slice. rewrite Nat.sub_0_r, substring_prefix.
  rewrite (IndexByte_plain h ":") by auto. simpl found.
  unfold checkBrackets, sliceFrom.
  rewrite Nat.sub_0_r, substring_all.
  assert (Hno : forall c, c = "["%char \/ c = "]"%char ->
                          IndexByte (h +:+ String ":" p) c = None).
  { intros c Hc. apply IndexByte_app_None; [apply IndexByte_plain; tauto|].
    simpl. rewrite (IndexByte_plain p c) by tauto.
    destruct Hc as [-> | ->]; reflexivity. }
  rewrite !Hno by auto. simpl found.
  rewrite length_app. simpl String.length.
  replace (String.length h + 1)%nat with (String.length (h +:+ ":"))
    by (rewrite length_app; reflexivity).
  rewrite <- (append_byte h p ":").
  rewrite substring_skip, length_app. simpl String.length.
  replace (String.length h + S (String.length p) - (String.length h + 1))%nat
    with (String.length p) by lia.
  rewrite substring_all. reflexivity.
Qed.

(** Without a colon there is no port to split off. *)
Lemma SplitHostPort_no_colon (s : string) :
  IndexByte s ":" = None -> SplitHostPort s = addrErr missingPort.
Proof.
  intros Hs. unfold SplitHostPort. rewrite (LastIndexByte_None _ _ Hs). reflexivity.
Qed.

(** X17.  The redirect to HTTPS drops the port of a request host of the
    form host:port. *)
Lemma redirectHost_host_port (h p : string) :
  plain h = true -> plain p = true ->
  Service.redirectHost (h +:+ ":" +:+ p) = h.
Proof.
  intros Hh Hp. unfold Service.redirectHost.
  rewrite SplitHostPort_host_port by assumption. reflexivity.
Qed.

(** X18.  A request host without a colon is used for the redirect as it
    is. *)
Lemma redirectHost_no_port (h : string) :
  IndexByte h ":" = None -> Service.redirectHost h = h.
Proof.
  intros Hh. unfold Service.redirectHost.
  rewrite SplitHostPort_no_colon by assumption. reflexivity.
Qed.

Example redirectHost_name_port : Service.redirectHost "app.example.com:8080" = "app.example.com".
Proof. reflexivity. Qed.

Example redirectHost_name : Service.redirectHost "app.example.com" = "app.example.com".
Proof. reflexivity. Qed.

Example redirectHost_ipv6_port : Service.redirectHost "[::1]:8080" = "::1".
Proof. reflexivity. Qed.

Example redirectHost_ipv6 : Service.redirectHost "[::1]" = "[::1]".
Proof. reflexivity. Qed.

End NetFacts.

(** ** The host of the HTTPS redirect *)

Module RedirectHostFacts.

Import Net.

Lemma IndexByte_app_first (s t : string) (c : ascii) :
  IndexByte s c = None -> IndexByte (s +:+ String c t) c = Some (String.length s).
Proof.
  intros Hs. induction s as [|a s IH]; simpl in *.
  - rewrite Ascii.eqb_refl. reflexivity.
  - destruct (Ascii.eqb a c); [discriminate|].
    destruct (IndexByte s c); [discriminate|]. rewrite IH; reflexivity.
Qed.

Lemma substring_tail (a : ascii) (s : string) (n m : nat) :
  substring (S n) m (String a s) = substring n m s.
Proof. reflexivity. Qed.

(** A host in square brackets followed by a port is split into the host
    without the brackets and the port. *)
Lemma SplitHostPort_bracketed (h p : string) :
  IndexByte h "[" = None -> IndexByte h "]" = None -> plain p = true ->
  SplitHostPort ("[" +:+ h +:+ "]:" +:+ p) = inl (h, p).
Proof.
  intros Hopen Hclose Hp.
  change ("[" +:+ h +:+ "]:" +:+ p) with (String "[" (h +:+ String "]" (String ":" p))).
  set (rest := h +:+ String "]" (String ":" p)).
  assert (Hrest : rest = (h +:+ "]") +:+ String ":" p)
    by (unfold rest; rewrite NetFacts.append_byte; reflexivity).
  assert (Hlen : String.length rest = (String.length h + 2 + String.length p)%nat).
  { unfold rest. rewrite NetFacts.length_app. simpl. lia. }
  assert (Hlast : LastIndexByte rest ":" = Some (String.length h + 1)%nat).
  { rewrite Hrest, NetFacts.LastIndexByte_app.
    - rewrite NetFacts.length_app. reflexivity.
    - apply NetFacts.LastIndexByte_None, NetFacts.IndexByte_plain; auto. }
  assert (Hend : IndexByte rest "]" = Some (String.length h))
    by (unfold rest; apply IndexByte_app_first; exact Hclose).
  assert (Hno : IndexByte rest "[" = None).
  { unfold rest. apply NetFacts.IndexByte_app_None; [exact Hopen|].
    simpl. rewrite (NetFacts.IndexByte_plain p "[") by auto. reflexivity. }
  assert (A1 : slice (String "[" rest) 1 (S (String.length h)) = h).
  { unfold slice. rewrite substring_tail.
    replace (S (String.length h) - 1)%nat with (String.length h) by lia.
    unfold rest. apply NetFacts.substring_prefix. }
  assert (A2 : sliceFrom (String "[" rest) 1 = rest).
  { unfold sliceFrom. rewrite substring_tail. simpl String.length.
    replace (S (String.length rest) - 1)%nat with (String.length rest) by lia.
    apply NetFacts.substring_all. }
  assert (A3 : sliceFrom (String "[" rest) (S (String.length h) + 1) = String ":" p).
  { unfold sliceFrom. simpl String.length. rewrite Hlen.
    replace (S (String.length h) + 1)%nat with (S (String.length (h +:+ "]")))
      by (rewrite NetFacts.length_app; simpl; lia).
    rewrite substring_tail, Hrest, NetFacts.substring_skip.
    replace (S (String.length h + 2 + String.length p) - S (String.length (h +:+ "]")))%nat
      with (String.length (String ":" p))
      by (rewrite NetFacts.length_app; simpl; lia).
    apply NetFacts.substring_all. }
  assert (A4 : sliceFrom (String "[" rest) (S (String.length h + 1) + 1) = p).
  { unfold sliceFrom. simpl String.length. rewrite Hlen.
    replace (S (String.length h + 1) + 1)%nat
      with (S (String.length ((h +:+ "]") +:+ ":")))
      by (rewrite !NetFacts.length_app; simpl; lia).
    replace rest with (((h +:+ "]") +:+ ":") +:+ p)
      by (rewrite Hrest, NetFacts.append_byte; reflexivity).
    rewrite substring_tail, NetFacts.substring_skip.
    replace (S (String.length h + 2 + String.length p)
             - S (String.length ((h +:+ "]") +:+ ":")))%nat
      with (String.length p) by (rewrite !NetFacts.length_app; simpl; lia).
    apply NetFacts.substring_all. }
  unfold SplitHostPort. simpl LastIndexByte. rewrite Hlast.
  change (byteIs (String "[" rest) 0 "[") with true. cbv iota.
  simpl IndexByte. rewrite Hend.
  simpl String.length. rewrite Hlen.
  replace (S (String.length h) + 1 =? S (String.length h + 2 + String.length p))%nat
    with false by (symmetry; apply Nat.eqb_neq; lia).
  replace (S (String.length h) + 1 =? S (String.length h + 1))%nat
    with true by (symmetry; apply Nat.eqb_eq; lia).
  unfold checkBrackets. rewrite A1, A2, A3, A4, Hno. simpl found.
  simpl IndexByte. rewrite (NetFacts.IndexByte_plain p "]") by auto. reflexivity.
Qed.

(** A host in square brackets without a port cannot be split. *)
Lemma SplitHostPort_bracketed_no_port (h : string) :
  IndexByte h "]" = None ->
  exists e, SplitHostPort ("[" +:+ h +:+ "]") = inr e.
Proof.
  intros Hclose.
  change ("[" +:+ h +:+ "]") with (String "[" (h +:+ String "]" EmptyString)).
  unfold SplitHostPort.
  destruct (LastIndexByte _ ":") as [i|]; [|eexists; reflexivity].
  change (byteIs (String "[" (h +:+ String "]" EmptyString)) 0 "[") with true. cbv iota.
  simpl IndexByte. rewrite (IndexByte_app_first h EmptyString "]" Hclose).
  simpl String.length. rewrite NetFacts.length_app. simpl String.length.
  replace (S (String.length h) + 1 =? S (String.length h + 1))%nat
    with true by (symmetry; apply Nat.eqb_eq; lia).
  eexists; reflexivity.
Qed.

(** X14.  For an address in square brackets, the redirect keeps the
    brackets when the request host has no port and drops them together with
    the port when it has one. *)
Theorem redirectHost_bracketed (h p : string) :
  IndexByte h "[" = None -> IndexByte h "]" = None -> plain p = true ->
  Service.redirectHost ("[" +:+ h +:+ "]:" +:+ p) = h /\
  Service.redirectHost ("[" +:+ h +:+ "]") = "[" +:+ h +:+ "]".
Proof.
  intros Hopen Hclose Hp. unfold Service.redirectHost. split.
  - rewrite SplitHostPort_bracketed by assumption. reflexivity.
  - destruct (SplitHostPort_bracketed_no_port h Hclose) as [e ->]. reflexivity.
Qed.

Lemma redirectHost_bracketed_witness :
  IndexByte "::1" "[" = None /\ IndexByte "::1" "]" = None /\ plain "8080" = true /\
  Service.redirectHost "[::1]:8080" = "::1" /\
  Service.redirectHost "[::1]" = "[::1]".
Proof.
  split; [reflexivity|]. split; [reflexivity|]. split; [reflexivity|].
  exact (redirectHost_bracketed "::1" "8080" eq_refl eq_refl eq_refl).
Defined.

Lemma redirectHost_host_port_witness :
  plain "app.example.com" = true /\ plain "8080" = true /\
  Service.redirectHost "app.example.com:8080" = "app.example.com".
Proof.
  split; [reflexivity|]. split; [reflexivity|].
  exact (NetFacts.redirectHost_host_port "app.example.com" "8080" eq_refl eq_refl).
Defined.

Lemma redirectHost_no_port_witness :
  IndexByte "app.example.com" ":" = None /\
  Service.redirectHost "app.example.com" = "app.example.com".
Proof.
  split; [reflexivity|].
  exact (NetFacts.redirectHost_no_port "app.example.com" eq_refl).
Defined.

End RedirectHostFacts.

(** ** The buffered response writer *)

Module ResponseBufferFacts.

Import ResponseBuffer.

Section Facts.

Context {Buffer : Type} `{BufferOps Buffer}.

Implicit Type w : @bufferedResponseWriter Buffer.
Implicit Type h : ResponseBufferMiddleware.
Implicit Type cs : list HandlerCall.
Implicit Type c : HandlerCall.

Lemma runHandler_app cs cs' w :
  runHandler (cs ++ cs') w = runHandler cs' (runHandler cs w).
Proof. unfold runHandler. apply fold_left_app. Qed.

Lemma Write_writer w (data : list byte) :
  ResponseWriter (fst (Write w data)) = ResponseWriter w /\
  hijacked (fst (Write w data)) = hijacked w /\
  statusCode (fst (Write w data)) = statusCode w.
Proof.
  unfold Write. destruct (Buffer_Write (buffer w) data) as [b [n err]].
  destruct (decide (err = Some ErrMaximumSizeExceeded)); simpl; auto.
Qed.

(** A handler cannot commit the status line of the underlying writer: it
    reaches it only through [Header] and [Hijack]. *)
Lemma perform_status w c :
  Http.status (ResponseWriter (perform w c)) = Http.status (ResponseWriter w).
Proof.
  destruct c; simpl.
  - apply HttpFacts.status_call_silent; reflexivity.
  - apply HttpFacts.status_call_silent; reflexivity.
  - reflexivity.
  - destruct (Write_writer w data) as [-> _]; reflexivity.
  - unfold Hijack. destruct (Http.hijacker (ResponseWriter w)); simpl; [|reflexivity].
    apply HttpFacts.status_call_silent; reflexivity.
Qed.

Lemma runHandler_status cs w :
  Http.status (ResponseWriter (runHandler cs w)) = Http.status (ResponseWriter w).
Proof.
  revert w. induction cs as [|c cs IH]; intros w; simpl; [reflexivity|].
  unfold runHandler in *; simpl. rewrite IH. apply perform_status.
Qed.

(** Once hijacked, always hijacked. *)
Lemma perform_hijacked w c :
  hijacked w = true -> hijacked (perform w c) = true.
Proof.
  intros Hh. destruct c; simpl; try exact Hh.
  - destruct (Write_writer w data) as (_ & -> & _); exact Hh.
  - unfold Hijack. destruct (Http.hijacker (ResponseWriter w)); simpl; [reflexivity|exact Hh].
Qed.

Lemma runHandler_hijacked cs w :
  hijacked w = true -> hijacked (runHandler cs w) = true.
Proof.
  revert w. induction cs as [|c cs IH]; intros w Hh; simpl; [exact Hh|].
  unfold runHandler in *; simpl. apply IH, perform_hijacked, Hh.
Qed.

Lemma Hijack_hijacked w :
  Http.hijacker (ResponseWriter w) = true ->
  hijacked (fst (Hijack w)) = true /\
  snd (Hijack w) = Http.hijackErr (ResponseWriter w).
Proof. intros Hh. unfold Hijack. rewrite Hh. simpl. auto. Qed.

(** C1.  When the buffer answers a write with the maximum-size-exceeded
    error, [Write] returns the full length of [data] and no error,
    whatever count the buffer returned. *)
Theorem Write_overflow_reports_full_length
        (w : @bufferedResponseWriter Buffer) (data : list byte) :
  snd (snd (Buffer_Write (buffer w) data)) = Some ErrMaximumSizeExceeded ->
  snd (Write w data) = (len data, None).
Proof.
  unfold Write. destruct (Buffer_Write (buffer w) data) as [b [n err]]; simpl.
  intros ->. destruct (decide _) as [_|Hne]; [reflexivity|congruence].
Qed.

(** C3 (amended).  After a successful [Hijack], whatever the handler does
    next, [Send] leaves the writer as it is, so nothing reaches the
    underlying writer; it returns no error unless the buffer has
    overflowed, in which case it returns the maximum-size-exceeded
    error. *)
Theorem Send_after_Hijack
        (w0 : @bufferedResponseWriter Buffer) (cs : list HandlerCall) :
  Http.hijacker (ResponseWriter w0) = true ->
  fst (Send (runHandler cs (fst (Hijack w0)))) = runHandler cs (fst (Hijack w0)) /\
  snd (Send (runHandler cs (fst (Hijack w0)))) =
    if Buffer_Overflowed (buffer (runHandler cs (fst (Hijack w0))))
    then Some ErrMaximumSizeExceeded else None.
Proof.
  intros Hh.
  assert (Hj : hijacked (runHandler cs (fst (Hijack w0))) = true).
  { apply runHandler_hijacked, Hijack_hijacked, Hh. }
  unfold Send. destruct (Buffer_Overflowed _); [auto|]. rewrite Hj. auto.
Qed.

End Facts.

(** *** The buffer of the spec *)

Lemma len_nonneg {A} (l : list A) : 0 <= len l.
Proof. unfold len. lia. Qed.

Lemma len_app {A} (l l' : list A) : len (l ++ l') = len l + len l'.
Proof. unfold len. rewrite length_app. lia. Qed.

Lemma SpecBuffer_Write_accounts (b : SpecBuffer.Buffer) (data : list byte) (total : Z) :
  SpecBuffer.accounts b total ->
  SpecBuffer.accounts (fst (SpecBuffer.Write b data)) (total + len data) /\
  SpecBuffer.maxBytes (fst (SpecBuffer.Write b data)) = SpecBuffer.maxBytes b.
Proof.
  unfold SpecBuffer.accounts, SpecBuffer.Write. pose proof (len_nonneg data) as Hd.
  destruct (SpecBuffer.overflowed b) eqn:Ho; simpl.
  - rewrite Ho. intros Hlt. split; [lia|reflexivity].
  - intros [Hsize Hle].
    destruct (SpecBuffer.maxBytes b <? SpecBuffer.size b + len data) eqn:Hcmp; simpl.
    + apply Z.ltb_lt in Hcmp. split; [lia|reflexivity].
    + apply Z.ltb_ge in Hcmp. unfold SpecBuffer.size in *.
      destruct (SpecBuffer.file b) as [f|] eqn:Hf; simpl.
      * rewrite len_app. split; [lia|reflexivity].
      * destruct (SpecBuffer.maxMemBytes b <? _); simpl;
          rewrite ?len_app; change (len (@nil byte)) with 0;
          (split; [lia|reflexivity]).
Qed.

Lemma perform_accounts (w : @bufferedResponseWriter SpecBuffer.Buffer)
      (c : HandlerCall) (total : Z) :
  SpecBuffer.accounts (buffer w) total ->
  SpecBuffer.accounts (buffer (perform w c)) (total + bytesWritten [c]) /\
  SpecBuffer.maxBytes (buffer (perform w c)) = SpecBuffer.maxBytes (buffer w).
Proof.
  intros Hacc. destruct c; simpl; rewrite ?Z.add_0_r; try (split; [exact Hacc|reflexivity]).
  - pose proof (SpecBuffer_Write_accounts (buffer w) data total Hacc) as Hw.
    unfold Write. simpl. destruct (SpecBuffer.Write (buffer w) data) as [b [n err]].
    destruct (decide _); simpl in *; exact Hw.
  - unfold Hijack. destruct (Http.hijacker _); simpl; split; auto.
Qed.

Lemma runHandler_accounts (cs : list HandlerCall)
      (w : @bufferedResponseWriter SpecBuffer.Buffer) (total : Z) :
  SpecBuffer.accounts (buffer w) total ->
  SpecBuffer.accounts (buffer (runHandler cs w)) (total + bytesWritten cs) /\
  SpecBuffer.maxBytes (buffer (runHandler cs w)) = SpecBuffer.maxBytes (buffer w).
Proof.
  revert w total. induction cs as [|c cs IH]; intros w total Hacc.
  - simpl. rewrite Z.add_0_r. auto.
  - destruct (perform_accounts w c total Hacc) as [Hc Hm].
    destruct (IH (perform w c) _ Hc) as [Hcs Hms].
    change (runHandler (c :: cs) w) with (runHandler cs (perform w c)).
    split; [|congruence].
    replace (total + bytesWritten (c :: cs))
      with (total + bytesWritten [c] + bytesWritten cs); [exact Hcs|].
    simpl. destruct c; lia.
Qed.

(** With the buffer of the spec and a limit that is not negative, the
    buffer is overflowed after the handler has run exactly when the handler
    wrote more than [maxBytes] bytes. *)
Lemma SpecBuffer_overflowed_iff (h : ResponseBufferMiddleware) (w : Http.ResponseWriter)
      (cs : list HandlerCall) :
  0 <= maxBytes h ->
  Buffer_Overflowed (buffer (runHandler cs (newWriter h w))) = true <->
  maxBytes h < bytesWritten cs.
Proof.
  intros Hmax.
  destruct (runHandler_accounts cs (newWriter h w) 0) as [Hacc Hm].
  { unfold SpecBuffer.accounts. simpl. unfold SpecBuffer.size. simpl.
    change (len (@nil byte)) with 0. lia. }
  simpl in Hm. unfold SpecBuffer.accounts in Hacc. simpl Buffer_Overflowed.
  unfold SpecBuffer.Overflowed.
  destruct (SpecBuffer.overflowed _); rewrite Hm in Hacc; simpl in *.
  - split; [lia|reflexivity].
  - split; [discriminate|lia].
Qed.

(** *** Runs *)

Lemma Write_overflow_reports_full_length_witness :
  snd (snd (Buffer_Write (SpecBuffer.New 4 4) Scenario.body2000))
    = Some ErrMaximumSizeExceeded /\
  snd (Write (mkWriter Scenario.conn 200 (SpecBuffer.New 4 4) false) Scenario.body2000)
    = (2000, None).
Proof.
  split; [reflexivity|].
  exact (Write_overflow_reports_full_length
           (mkWriter Scenario.conn 200 (SpecBuffer.New 4 4) false)
           Scenario.body2000 eq_refl).
Defined.

Lemma Send_after_Hijack_witness :
  Http.hijacker Scenario.conn = true /\
  Send (runHandler [DoWrite (Scenario.bytes "hello")]
          (fst (Hijack (mkWriter Scenario.conn 200 (SpecBuffer.New 1024 512) false))))
  = (runHandler [DoWrite (Scenario.bytes "hello")]
       (fst (Hijack (mkWriter Scenario.conn 200 (SpecBuffer.New 1024 512) false))),
     None).
Proof.
  split; [reflexivity|].
  pose proof (Send_after_Hijack
                (mkWriter Scenario.conn 200 (SpecBuffer.New 1024 512) false)
                [DoWrite (Scenario.bytes "hello")] eq_refl) as [H1 H2].
  rewrite (surjective_pairing (Send _)), H1, H2. reflexivity.
Defined.

(** C3, as stated, fails: a handler that overflows the buffer and then
    hijacks the connection gets the overflow error from [Send]. *)
Lemma Send_hijacked_overflow_counterexample :
  hijacked (runHandler (Scenario.upgradingHandler (Scenario.get "/ws"))
              (newWriter (Buffer := SpecBuffer.Buffer)
                 (Scenario.limited Scenario.upgradingHandler) Scenario.conn)) = true /\
  snd (Send (runHandler (Scenario.upgradingHandler (Scenario.get "/ws"))
               (newWriter (Buffer := SpecBuffer.Buffer)
                  (Scenario.limited Scenario.upgradingHandler) Scenario.conn)))
    = Some ErrMaximumSizeExceeded /\
  ~ (snd (Send (runHandler (Scenario.upgradingHandler (Scenario.get "/ws"))
                  (newWriter (Buffer := SpecBuffer.Buffer)
                     (Scenario.limited Scenario.upgradingHandler) Scenario.conn)))
     = None).
Proof.
  split; [reflexivity|]. split; [reflexivity|]. discriminate.
Qed.

End ResponseBufferFacts.

(** ** JSON: unmarshalling what was marshalled *)

Module JsonFacts.

Import Json.

#[local] Arguments toValidUTF8 : simpl never.
#[local] Arguments inInt64 : simpl never.

Lemma ValidString_eq (s : string) : ValidString s = true -> toValidUTF8 s = s.
Proof. unfold ValidString. apply String.eqb_eq. Qed.

Lemma decodeString_encodeString (s old : string) :
  ValidString s = true -> decodeString (encodeString s) old = Some s.
Proof.
  intros Hs. unfold decodeString, encodeString.
  rewrite !(ValidString_eq s Hs). reflexivity.
Qed.






End JsonFacts.

(** ** The service *)

Module ServiceFacts.

Import Http PauseControl Service.

Section Facts.

Context {TargetOptions : Type} `{Json.Codec TargetOptions}.
Variable validTargetAddress : string -> bool.
Variable IsHealthCheckRequest : option (Target.Target TargetOptions) -> Request -> bool.
Variable roundTrip : Target.Target TargetOptions -> Request -> list Call.
Variable sha256Hex : string -> string.
Variable pathJoin : string -> string -> string.

Local Abbreviation ServeHTTP := (Service.ServeHTTP IsHealthCheckRequest roundTrip).
Local Abbreviation serve := (Service.serve IsHealthCheckRequest roundTrip).
Local Abbreviation claimAndSend := (Service.claimAndSend roundTrip).
Local Abbreviation handlePausedAndStoppedRequests :=
  (Service.handlePausedAndStoppedRequests IsHealthCheckRequest).
Local Abbreviation UpdateOptions := (Service.UpdateOptions sha256Hex pathJoin).
Local Abbreviation createCertManager := (Service.createCertManager sha256Hex pathJoin).
Local Abbreviation UnmarshalJSON :=
  (Service.UnmarshalJSON validTargetAddress sha256Hex pathJoin).

Implicit Type σ : @World TargetOptions.
Implicit Type s : @Service.Service TargetOptions.
Implicit Type r : Request.

(** Symbolic execution of the pipeline on the goal. *)
Ltac run :=
  unfold Service.ServeHTTP, Service.serve, Service.claimAndSend,
    Service.handlePausedAndStoppedRequests, Service.redirectToHTTPS,
    Service.recordServiceNameForRequest, Service.recordHeadersForRequest,
    Service.ClaimTarget, Service.SendRequest,
    mbind, mret, Service.M_bind, Service.M_ret,
    getService, getStore, setService, setStore, onWriter, slog, forward,
    ActiveTarget;
  simpl.

Lemma ServeHTTP_serve r σ : ServeHTTP r σ = serve r (recorded r σ).
Proof.
  unfold Service.recorded. run.
  destruct (asStringPtr _), (asStringsPtr _); reflexivity.
Qed.

Lemma recorded_frame r σ :
  service (recorded r σ) = service σ /\
  writer (recorded r σ) = writer σ /\
  log (recorded r σ) = log σ /\
  upstream (recorded r σ) = upstream σ.
Proof.
  unfold Service.recorded. run.
  destruct (asStringPtr _), (asStringsPtr _); simpl; auto.
Qed.

Arguments Service.recorded : simpl never.

(** C10.  [UpdateOptions] replaces the options and the certificate
    manager and nothing else: name, host, active target and pause
    control, hence the pause state and what a waiting request is told,
    are as before. *)
Theorem UpdateOptions_frame s (options' : ServiceOptions) :
  options (UpdateOptions s options') = options' /\
  certManager (UpdateOptions s options') =
    createCertManager (UpdateOptions s options') /\
  name (UpdateOptions s options') = name s /\
  host (UpdateOptions s options') = host s /\
  active (UpdateOptions s options') = active s /\
  pauseControl (UpdateOptions s options') = pauseControl s /\
  State (pauseControl (UpdateOptions s options')) = State (pauseControl s) /\
  Wait (pauseControl (UpdateOptions s options')) = Wait (pauseControl s).
Proof. repeat split. Qed.


(** *** Frames of the steps *)

Lemma status_fresh_call (c : Call) (w : ResponseWriter) (code : Z) :
  status w = None -> commits c = Some code -> status (call c w) = Some code.
Proof. intros Hw Hc. rewrite HttpFacts.status_call, Hw. exact Hc. Qed.

(** Whether the pause logic handles a request is decided by the service
    alone, and a request it does not handle leaves no trace. *)
Lemma handlePaused_service r σ σ' :
  service σ = service σ' ->
  fst (handlePausedAndStoppedRequests r σ) = fst (handlePausedAndStoppedRequests r σ').
Proof.
  intros Hs. run. rewrite Hs.
  destruct (bool_decide _ && _); [reflexivity|].
  destruct (Wait _); reflexivity.
Qed.

Lemma handlePaused_false r σ :
  fst (handlePausedAndStoppedRequests r σ) = false ->
  handlePausedAndStoppedRequests r σ = (false, σ).
Proof.
  run. destruct (bool_decide _ && _); [discriminate|].
  destruct (Wait _); simpl; try discriminate. destruct σ; reflexivity.
Qed.

Lemma setActive_same s : setActive s (active s) = s.
Proof. destruct s; reflexivity. Qed.

(** Claiming fails exactly when there is no active target or the active
    target is draining, and a failed claim changes nothing. *)
Lemma ClaimTarget_fails_iff r σ :
  snd (fst (ClaimTarget r σ)) <> None <->
  (active (service σ) = None \/
   exists t, active (service σ) = Some t /\
             Target.state t = Target.TargetStateDraining).
Proof.
  run. unfold Target.StartRequest.
  destruct (active (service σ)) as [t|]; simpl.
  - destruct (decide (Target.state t = Target.TargetStateDraining)) as [Hd|Hd]; simpl.
    + split; [intros _; right; eauto|discriminate].
    + split; [congruence|]. intros [Hn|(t' & Ht & Hs)]; [discriminate|].
      injection Ht as <-. contradiction.
  - split; [auto|discriminate].
Qed.

Lemma ClaimTarget_failure r σ :
  snd (fst (ClaimTarget r σ)) <> None ->
  ClaimTarget r σ = ((active (service σ), r, Some ErrTargetUnavailable), σ).
Proof.
  run. unfold Target.StartRequest.
  destruct σ as [s w st lg up]; simpl.
  destruct (active s) as [t|] eqn:Ha; simpl.
  - destruct (decide (Target.state t = Target.TargetStateDraining)); simpl.
    + intros _. rewrite <- Ha, setActive_same. reflexivity.
    + congruence.
  - intros _. rewrite <- Ha, setActive_same. reflexivity.
Qed.

Lemma ClaimTarget_error_service r σ σ' :
  service σ = service σ' ->
  snd (fst (ClaimTarget r σ)) <> None -> snd (fst (ClaimTarget r σ')) <> None.
Proof.
  intros Hs. rewrite !ClaimTarget_fails_iff, Hs. auto.
Qed.

(** C9.  Recording is optional.  When the [service] slot is absent or
    does not hold a pointer to a string, nothing is recorded and nothing
    else happens, and likewise for the [headers] slot; when a slot is
    present, the service name, resp. the [LogHeaders] list, is written
    into its cell.  In every case [ServeHTTP] goes on with the rest of
    the pipeline, and the recording leaves service, response, log and
    upstream traffic alone. *)
Theorem recording_is_optional r σ :
  ((forall p, Value (ctx r) contextKeyService <> Some (StringPtr p)) ->
   recordServiceNameForRequest r σ = (tt, σ)) /\
  ((forall p, Value (ctx r) contextKeyHeaders <> Some (StringsPtr p)) ->
   recordHeadersForRequest r σ = (tt, σ)) /\
  (forall p, Value (ctx r) contextKeyService = Some (StringPtr p) ->
   store (snd (recordServiceNameForRequest r σ)) =
     storeString p (name (service σ)) (store σ) /\
   stringCells (store (snd (recordServiceNameForRequest r σ))) !! p =
     Some (name (service σ))) /\
  (forall p, Value (ctx r) contextKeyHeaders = Some (StringsPtr p) ->
   store (snd (recordHeadersForRequest r σ)) =
     storeStrings p (LogHeaders (options (service σ))) (store σ) /\
   stringsCells (store (snd (recordHeadersForRequest r σ))) !! p =
     Some (LogHeaders (options (service σ)))) /\
  ServeHTTP r σ = serve r (recorded r σ) /\
  service (recorded r σ) = service σ /\
  writer (recorded r σ) = writer σ /\
  log (recorded r σ) = log σ /\
  upstream (recorded r σ) = upstream σ /\
  ((forall p, Value (ctx r) contextKeyService <> Some (StringPtr p)) ->
   (forall p, Value (ctx r) contextKeyHeaders <> Some (StringsPtr p)) ->
   ServeHTTP r σ = serve r σ).
Proof.
  assert (Hs : (forall p, Value (ctx r) contextKeyService <> Some (StringPtr p)) ->
               recordServiceNameForRequest r σ = (tt, σ)).
  { intros Hno. run.
    destruct (Value (ctx r) contextKeyService) as [[p| | |]|]; simpl; try reflexivity.
    exfalso; exact (Hno p eq_refl). }
  assert (Hh : (forall p, Value (ctx r) contextKeyHeaders <> Some (StringsPtr p)) ->
               recordHeadersForRequest r σ = (tt, σ)).
  { intros Hno. run.
    destruct (Value (ctx r) contextKeyHeaders) as [[|p| |]|]; simpl; try reflexivity.
    exfalso; exact (Hno p eq_refl). }
  split; [exact Hs|]. split; [exact Hh|].
  split.
  { intros p Hp. run. rewrite Hp. simpl. split; [reflexivity|].
    apply lookup_insert_eq. }
  split.
  { intros p Hp. run. rewrite Hp. simpl. split; [reflexivity|].
    apply lookup_insert_eq. }
  split; [apply ServeHTTP_serve|].
  destruct (recorded_frame r σ) as (? & ? & ? & ?).
  repeat (split; [assumption|]).
  intros Hno1 Hno2. rewrite ServeHTTP_serve. unfold recorded.
  rewrite (Hs Hno1). simpl. rewrite (Hh Hno2). reflexivity.
Qed.

(** C5 (amended).  While the pause control is not running, a request
    recognised as a downstream health check is answered by the pause logic
    with [WriteHeader(200)] and reported as handled; in [ServeHTTP], for a
    request that is not redirected to HTTPS, that call is all that
    happens: the status is 200, no target is claimed and nothing is
    forwarded upstream.  The redirect to HTTPS comes first. *)
Theorem paused_health_check_200 r σ :
  State (pauseControl (service σ)) <> PauseStateRunning ->
  IsHealthCheckRequest (ActiveTarget (service σ)) r = true ->
  handlePausedAndStoppedRequests r σ = (true, snd (onWriter (WriteHeader StatusOK) σ)) /\
  (RequireTLS (options (service σ)) && negb (TLS r) = false ->
   calls (writer (snd (ServeHTTP r σ))) = calls (writer σ) ++ [WriteHeader StatusOK] /\
   upstream (snd (ServeHTTP r σ)) = upstream σ /\
   service (snd (ServeHTTP r σ)) = service σ /\
   log (snd (ServeHTTP r σ)) = log σ /\
   (status (writer σ) = None -> status (writer (snd (ServeHTTP r σ))) = Some StatusOK)).
Proof.
  intros Hstate Hprobe. unfold ActiveTarget in Hprobe.
  assert (Hh : forall σ0, service σ0 = service σ ->
            handlePausedAndStoppedRequests r σ0 =
            (true, snd (onWriter (WriteHeader StatusOK) σ0))).
  { intros σ0 Hs. run. rewrite Hs, Hprobe.
    rewrite bool_decide_eq_true_2 by exact Hstate. simpl. rewrite Hs. reflexivity. }
  split; [apply Hh; reflexivity|].
  intros Hgate. rewrite ServeHTTP_serve.
  destruct (recorded_frame r σ) as (Hs & Hw & Hl & Hu).
  unfold Service.serve at 1 2 3 4 5.
  unfold mbind, Service.M_bind, getService. simpl. rewrite Hs, Hgate.
  rewrite (Hh _ Hs). run. rewrite Hw, Hu, Hs, Hl.
  repeat split. intros Hfresh.
  unfold status. simpl. rewrite HttpFacts.statusOf_app.
  unfold status in Hfresh. rewrite Hfresh. reflexivity.
Qed.

(** C6.  For a request that does not take the health-check shortcut, the
    answer of [Wait] decides: on Proceed the pause logic reports the
    request as not handled and leaves no trace, and [ServeHTTP] goes on
    to claim the target; on Unavailable it writes status 503; on TimedOut
    it logs one warning and writes status 504.  In the last two cases the
    request is handled: nothing is forwarded upstream. *)
Theorem pause_wait_mapping r σ :
  bool_decide (State (pauseControl (service σ)) <> PauseStateRunning)
    && IsHealthCheckRequest (ActiveTarget (service σ)) r = false ->
  match Wait (pauseControl (service σ)) with
  | PauseWaitActionProceed =>
      handlePausedAndStoppedRequests r σ = (false, σ) /\
      (RequireTLS (options (service σ)) && negb (TLS r) = false ->
       ServeHTTP r σ = claimAndSend r (recorded r σ))
  | PauseWaitActionUnavailable =>
      handlePausedAndStoppedRequests r σ =
        (true, snd (onWriter (WriteHeader StatusServiceUnavailable) σ)) /\
      (RequireTLS (options (service σ)) && negb (TLS r) = false ->
       calls (writer (snd (ServeHTTP r σ))) =
         calls (writer σ) ++ [WriteHeader StatusServiceUnavailable] /\
       log (snd (ServeHTTP r σ)) = log σ /\
       upstream (snd (ServeHTTP r σ)) = upstream σ /\
       service (snd (ServeHTTP r σ)) = service σ /\
       (status (writer σ) = None ->
        status (writer (snd (ServeHTTP r σ))) = Some StatusServiceUnavailable))
  | PauseWaitActionTimedOut =>
      handlePausedAndStoppedRequests r σ =
        (true, snd (onWriter (WriteHeader StatusGatewayTimeout)
                      (snd (slog (Slog.Warn "Rejecting request due to expired pause"
                                    [("service", name (service σ));
                                     ("path", URL_Path r)]) σ)))) /\
      (RequireTLS (options (service σ)) && negb (TLS r) = false ->
       calls (writer (snd (ServeHTTP r σ))) =
         calls (writer σ) ++ [WriteHeader StatusGatewayTimeout] /\
       log (snd (ServeHTTP r σ)) =
         log σ ++ [Slog.Warn "Rejecting request due to expired pause"
                     [("service", name (service σ)); ("path", URL_Path r)]] /\
       upstream (snd (ServeHTTP r σ)) = upstream σ /\
       service (snd (ServeHTTP r σ)) = service σ /\
       (status (writer σ) = None ->
        status (writer (snd (ServeHTTP r σ))) = Some StatusGatewayTimeout))
  end.
Proof.
  intros Hshort. unfold ActiveTarget in Hshort.
  destruct (recorded_frame r σ) as (Hs & Hw & Hl & Hu).
  assert (Hserve : RequireTLS (options (service σ)) && negb (TLS r) = false ->
            ServeHTTP r σ =
            (let '(handled, σ1) := handlePausedAndStoppedRequests r (recorded r σ) in
             if handled : bool then (tt, σ1) else claimAndSend r σ1)).
  { intros Hgate. rewrite ServeHTTP_serve. unfold Service.serve at 1.
    unfold mbind, Service.M_bind, getService. simpl. rewrite Hs, Hgate.
    destruct (handlePausedAndStoppedRequests r (recorded r σ)) as [[] σ1];
      reflexivity. }
  assert (Hh : forall σ0, service σ0 = service σ ->
            handlePausedAndStoppedRequests r σ0 =
            match Wait (pauseControl (service σ)) with
            | PauseWaitActionProceed => (false, σ0)
            | PauseWaitActionUnavailable =>
                (true, snd (onWriter (WriteHeader StatusServiceUnavailable) σ0))
            | PauseWaitActionTimedOut =>
                (true, snd (onWriter (WriteHeader StatusGatewayTimeout)
                              (snd (slog (Slog.Warn "Rejecting request due to expired pause"
                                            [("service", name (service σ));
                                             ("path", URL_Path r)]) σ0))))
            end).
  { intros σ0 Hs0. run. rewrite Hs0, Hshort. destruct (Wait _); simpl;
      rewrite ?Hs0; reflexivity. }
  pose proof (Hh σ eq_refl) as Hσ. pose proof (Hh _ Hs) as Hrec.
  destruct (Wait (pauseControl (service σ))).
  - split; [exact Hσ|]. intros Hgate. rewrite (Hserve Hgate), Hrec. reflexivity.
  - split; [exact Hσ|]. intros Hgate. rewrite (Hserve Hgate), Hrec. run.
    rewrite Hw, Hl, Hu, Hs. repeat split.
    intros Hfresh. unfold status in *. simpl. rewrite HttpFacts.statusOf_app, Hfresh.
    reflexivity.
  - split; [exact Hσ|]. intros Hgate. rewrite (Hserve Hgate), Hrec. run.
    rewrite Hw, Hl, Hu, Hs. repeat split.
    intros Hfresh. unfold status in *. simpl. rewrite HttpFacts.statusOf_app, Hfresh.
    reflexivity.
Qed.

(** C4.  A request that is neither redirected to HTTPS nor handled by the
    pause logic reaches the claim of the target.  When the claim fails,
    as it does when there is no active target and when the active target
    is draining, [ServeHTTP] answers with [http.Error] and status 503;
    nothing is forwarded upstream and the service, with its count of
    requests in flight, is as before. *)
Theorem claim_failure_503 r σ :
  RequireTLS (options (service σ)) && negb (TLS r) = false ->
  fst (handlePausedAndStoppedRequests r σ) = false ->
  status (writer σ) = None ->
  (active (service σ) = None \/
   (exists t, active (service σ) = Some t /\
              Target.state t = Target.TargetStateDraining) \/
   snd (fst (ClaimTarget r σ)) <> None) ->
  snd (fst (ClaimTarget r σ)) = Some ErrTargetUnavailable /\
  calls (writer (snd (ServeHTTP r σ))) =
    calls (writer σ) ++ [Error "Service not available" StatusServiceUnavailable] /\
  status (writer (snd (ServeHTTP r σ))) = Some StatusServiceUnavailable /\
  upstream (snd (ServeHTTP r σ)) = upstream σ /\
  service (snd (ServeHTTP r σ)) = service σ.
Proof.
  intros Hgate Hpause Hfresh Hfail.
  assert (Hclaim : snd (fst (ClaimTarget r σ)) <> None).
  { destruct Hfail as [Hn|[Hd|Hc]]; [| |exact Hc];
      apply ClaimTarget_fails_iff; auto. }
  destruct (recorded_frame r σ) as (Hs & Hw & Hl & Hu).
  split; [rewrite (ClaimTarget_failure r σ Hclaim); reflexivity|].
  assert (Hrun : ServeHTTP r σ =
                 onWriter (Error "Service not available" StatusServiceUnavailable)
                          (recorded r σ)).
  { rewrite ServeHTTP_serve. unfold Service.serve at 1.
    unfold mbind, Service.M_bind, getService. simpl. rewrite Hs, Hgate.
    rewrite (handlePaused_false r (recorded r σ)).
    2:{ rewrite (handlePaused_service r _ σ Hs). exact Hpause. }
    unfold Service.claimAndSend, mbind, Service.M_bind.
    rewrite (ClaimTarget_failure r (recorded r σ)).
    2:{ apply (ClaimTarget_error_service r σ); [symmetry; exact Hs|exact Hclaim]. }
    reflexivity. }
  rewrite Hrun. run. rewrite Hw, Hu, Hs. repeat split.
  unfold status in *. simpl. rewrite HttpFacts.statusOf_app, Hfresh. reflexivity.
Qed.




End Facts.

(** *** Runs *)

Import Scenario.

Local Abbreviation ServeHTTP' := (Service.ServeHTTP IsHealthCheckRequest roundTrip).

(** A claim that fails for want of a target, and one that fails on a
    draining target, with the service running. *)
Lemma claim_failure_503_witness :
  (active (service (world (myapp plainOptions None running))) = None /\
   status (writer (snd (ServeHTTP' home (world (myapp plainOptions None running)))))
     = Some 503 /\
   upstream (snd (ServeHTTP' home (world (myapp plainOptions None running)))) = []) /\
  (Target.state (upstream3000 Target.TargetStateDraining) = Target.TargetStateDraining /\
   status (writer (snd (ServeHTTP' home
      (world (myapp plainOptions (Some (upstream3000 Target.TargetStateDraining)) running)))))
     = Some 503 /\
   upstream (snd (ServeHTTP' home
      (world (myapp plainOptions (Some (upstream3000 Target.TargetStateDraining)) running))))
     = []).
Proof.
  split.
  - split; [reflexivity|].
    pose proof (claim_failure_503 IsHealthCheckRequest roundTrip home
                  (world (myapp plainOptions None running))
                  eq_refl eq_refl eq_refl (or_introl eq_refl))
      as (_ & _ & Hstatus & Hup & _).
    split; [exact Hstatus|exact Hup].
  - split; [reflexivity|].
    pose proof (claim_failure_503 IsHealthCheckRequest roundTrip home
                  (world (myapp plainOptions
                                (Some (upstream3000 Target.TargetStateDraining)) running))
                  eq_refl eq_refl eq_refl
                  (or_intror (or_introl
                     (ex_intro _ (upstream3000 Target.TargetStateDraining)
                               (conj eq_refl eq_refl)))))
      as (_ & _ & Hstatus & Hup & _).
    split; [exact Hstatus|exact Hup].
Defined.

(** S3: the service is paused and the prober asks for [/up]. *)
Lemma paused_health_check_200_witness :
  State (pauseControl (myapp plainOptions (Some (upstream3000 Target.TargetStateHealthy))
                             (pausedUntil DeadlineReached))) <> PauseStateRunning /\
  IsHealthCheckRequest (Some (upstream3000 Target.TargetStateHealthy)) probe = true /\
  status (writer (snd (ServeHTTP' probe
    (world (myapp plainOptions (Some (upstream3000 Target.TargetStateHealthy))
                  (pausedUntil DeadlineReached)))))) = Some 200 /\
  upstream (snd (ServeHTTP' probe
    (world (myapp plainOptions (Some (upstream3000 Target.TargetStateHealthy))
                  (pausedUntil DeadlineReached))))) = [].
Proof.
  assert (Hstate : State (pauseControl
              (myapp plainOptions (Some (upstream3000 Target.TargetStateHealthy))
                     (pausedUntil DeadlineReached))) <> PauseStateRunning)
    by discriminate.
  split; [exact Hstate|]. split; [reflexivity|].
  pose proof (paused_health_check_200 IsHealthCheckRequest roundTrip probe
                (world (myapp plainOptions (Some (upstream3000 Target.TargetStateHealthy))
                              (pausedUntil DeadlineReached)))
                Hstate eq_refl) as (_ & Hserve).
  destruct (Hserve eq_refl) as (_ & Hup & _ & _ & Hstatus).
  split; [exact (Hstatus eq_refl)|exact Hup].
Defined.

(** C5, as stated, fails: the service is paused and requires TLS, and the
    prober asks for [/up] over plain HTTP; the answer is the redirect to
    HTTPS, not 200. *)
Lemma paused_probe_redirected_counterexample :
  State (pauseControl (myapp tlsOptions (Some (upstream3000 Target.TargetStateHealthy))
                             (pausedUntil Resumed))) <> PauseStateRunning /\
  IsHealthCheckRequest (Some (upstream3000 Target.TargetStateHealthy)) probe = true /\
  calls (writer (snd (ServeHTTP' probe
    (world (myapp tlsOptions (Some (upstream3000 Target.TargetStateHealthy))
                  (pausedUntil Resumed))))))
    = [HeaderSet "Connection" "close";
       Redirect "GET" "https://app.example.com/up" 301] /\
  status (writer (snd (ServeHTTP' probe
    (world (myapp tlsOptions (Some (upstream3000 Target.TargetStateHealthy))
                  (pausedUntil Resumed)))))) = Some 301.
Proof.
  split; [discriminate|]. repeat split.
Qed.

(** S4: the service is paused, an ordinary request waits, and the pause
    deadline passes. *)
Lemma pause_wait_mapping_witness :
  bool_decide (State (pauseControl
      (myapp plainOptions (Some (upstream3000 Target.TargetStateHealthy))
             (pausedUntil DeadlineReached))) <> PauseStateRunning)
    && IsHealthCheckRequest (Some (upstream3000 Target.TargetStateHealthy)) home = false /\
  status (writer (snd (ServeHTTP' home
    (world (myapp plainOptions (Some (upstream3000 Target.TargetStateHealthy))
                  (pausedUntil DeadlineReached)))))) = Some 504 /\
  log (snd (ServeHTTP' home
    (world (myapp plainOptions (Some (upstream3000 Target.TargetStateHealthy))
                  (pausedUntil DeadlineReached))))) =
    [Slog.Warn "Rejecting request due to expired pause"
               [("service", "myapp"); ("path", "/")]].
Proof.
  split; [reflexivity|].
  pose proof (pause_wait_mapping IsHealthCheckRequest roundTrip home
                (world (myapp plainOptions (Some (upstream3000 Target.TargetStateHealthy))
                              (pausedUntil DeadlineReached)))
                eq_refl) as Hmap.
  change (Wait _) with PauseWaitActionTimedOut in Hmap.
  cbv iota in Hmap. destruct Hmap as (_ & Hserve).
  destruct (Hserve eq_refl) as (_ & Hlog & _ & _ & Hstatus).
  split; [exact (Hstatus eq_refl)|exact Hlog].
Defined.





(** A request that carries no usable slot, and one that carries both. *)
Lemma recording_is_optional_witness :
  ServeHTTP' bare (world (myapp plainOptions None running))
    = Service.serve IsHealthCheckRequest roundTrip bare
                    (world (myapp plainOptions None running)) /\
  stringCells (store (snd (recordServiceNameForRequest home
                             (world (myapp plainOptions None running))))) !! 1%nat
    = Some "myapp" /\
  stringsCells (store (snd (recordHeadersForRequest home
                              (world (myapp plainOptions None running))))) !! 3%nat
    = Some (Some ["X-Version"]).
Proof.
  pose proof (recording_is_optional IsHealthCheckRequest roundTrip bare
                (world (myapp plainOptions None running)))
    as (_ & _ & _ & _ & _ & _ & _ & _ & _ & Hbare).
  pose proof (recording_is_optional IsHealthCheckRequest roundTrip home
                (world (myapp plainOptions None running)))
    as (_ & _ & Hname & Hheaders & _).
  split; [apply Hbare; intros p; discriminate|].
  split; [exact (proj2 (Hname 1%nat eq_refl))|exact (proj2 (Hheaders 3%nat eq_refl))].
Defined.

End ServiceFacts.

(** ** Runs of a handler through the buffered writer *)

Module HandlerRunFacts.

Import ResponseBuffer HandlerRun.

Section Facts.

Context {Buffer : Type} `{BufferOps Buffer}.

Implicit Type w : @bufferedResponseWriter Buffer.
Implicit Type h : ResponseBufferMiddleware.
Implicit Type cs : list HandlerCall.
Implicit Type c : HandlerCall.

Lemma perform_underlying w c :
  Http.calls (ResponseWriter (perform w c)) =
    Http.calls (ResponseWriter w) ++ passedOn (Http.hijacker (ResponseWriter w)) c /\
  Http.hijacker (ResponseWriter (perform w c)) = Http.hijacker (ResponseWriter w) /\
  Http.hijackErr (ResponseWriter (perform w c)) = Http.hijackErr (ResponseWriter w).
Proof.
  destruct c; simpl; rewrite ?app_nil_r; auto.
  - destruct (ResponseBufferFacts.Write_writer w data) as (-> & _ & _). auto.
  - unfold Hijack. destruct (Http.hijacker (ResponseWriter w)) eqn:Hh; simpl;
      rewrite ?app_nil_r; auto.
Qed.

Lemma runHandler_underlying cs w :
  Http.calls (ResponseWriter (runHandler cs w)) =
    Http.calls (ResponseWriter w) ++ underlyingCalls (Http.hijacker (ResponseWriter w)) cs /\
  Http.hijacker (ResponseWriter (runHandler cs w)) = Http.hijacker (ResponseWriter w) /\
  Http.hijackErr (ResponseWriter (runHandler cs w)) = Http.hijackErr (ResponseWriter w).
Proof.
  revert w. induction cs as [|c cs IH]; intros w.
  - simpl. rewrite app_nil_r. auto.
  - change (runHandler (c :: cs) w) with (runHandler cs (perform w c)).
    destruct (IH (perform w c)) as (Hc & Hh & He).
    destruct (perform_underlying w c) as (Hc1 & Hh1 & He1).
    rewrite Hc, Hh, He, Hc1, Hh1, He1. simpl. rewrite <- app_assoc. auto.
Qed.

Lemma underlyingCalls_silent (hij : bool) cs :
  Forall (fun x : Http.Call => Http.commits x = None) (underlyingCalls hij cs).
Proof.
  induction cs as [|c cs IH]; simpl; [constructor|].
  apply Forall_app. split; [|exact IH].
  destruct c; simpl; try destruct hij; repeat constructor.
Qed.

Lemma perform_statusCode w c :
  statusCode (perform w c) =
  match c with DoWriteHeader code => code | _ => statusCode w end.
Proof.
  destruct c; simpl; try reflexivity.
  - destruct (ResponseBufferFacts.Write_writer w data) as (_ & _ & ->). reflexivity.
  - unfold Hijack. destruct (Http.hijacker _); reflexivity.
Qed.

Lemma runHandler_statusCode cs w :
  statusCode (runHandler cs w) = lastStatus (statusCode w) cs.
Proof.
  revert w. induction cs as [|c cs IH]; intros w; [reflexivity|].
  change (runHandler (c :: cs) w) with (runHandler cs (perform w c)).
  rewrite IH, perform_statusCode. reflexivity.
Qed.

Lemma perform_hijacked_eq w c :
  hijacked (perform w c) =
  hijacked w || (Http.hijacker (ResponseWriter w) && isHijack c).
Proof.
  destruct c; simpl; rewrite ?andb_false_r, ?orb_false_r; try reflexivity.
  - destruct (ResponseBufferFacts.Write_writer w data) as (_ & -> & _). reflexivity.
  - unfold Hijack. destruct (Http.hijacker _); simpl;
      rewrite ?orb_true_r, ?orb_false_r; reflexivity.
Qed.

Lemma runHandler_hijacked_eq cs w :
  hijacked (runHandler cs w) =
  hijacked w || (Http.hijacker (ResponseWriter w) && calledHijack cs).
Proof.
  revert w. induction cs as [|c cs IH]; intros w.
  - simpl. rewrite andb_false_r, orb_false_r. reflexivity.
  - change (runHandler (c :: cs) w) with (runHandler cs (perform w c)).
    rewrite IH, perform_hijacked_eq.
    destruct (perform_underlying w c) as (_ & -> & _).
    simpl. destruct (hijacked w), (Http.hijacker _), (isHijack c), (calledHijack cs);
      reflexivity.
Qed.

(** X1.  Whatever the handler does, the underlying writer sees only the
    header mutations of the run and, when it supports hijacking, the
    [Hijack] calls: no [WriteHeader] and no [Write] of the handler reaches
    it before [Send], so the run commits no status line. *)
Theorem handler_output_is_withheld
        (h : ResponseBufferMiddleware) (w : Http.ResponseWriter) (cs : list HandlerCall) :
  Http.calls (ResponseWriter (runHandler cs (newWriter h w))) =
    Http.calls w ++ underlyingCalls (Http.hijacker w) cs /\
  Forall (fun x : Http.Call => Http.commits x = None) (underlyingCalls (Http.hijacker w) cs) /\
  Http.status (ResponseWriter (runHandler cs (newWriter h w))) = Http.status w.
Proof.
  destruct (runHandler_underlying cs (newWriter h w)) as (Hc & _ & _).
  split; [exact Hc|]. split; [apply underlyingCalls_silent|].
  apply ResponseBufferFacts.runHandler_status.
Qed.

(** X2.  The status the middleware will replay is that of the last
    [WriteHeader] of the handler, 200 when the handler never calls it;
    earlier calls are overwritten and [Write] does not fix the status. *)
Theorem replayed_status_is_last_WriteHeader
        (h : ResponseBufferMiddleware) (w : Http.ResponseWriter)
        (cs cs' : list HandlerCall) (code : Z) :
  statusCode (runHandler cs (newWriter h w)) = lastStatus Http.StatusOK cs /\
  statusCode (runHandler (cs ++ DoWriteHeader code :: cs') (newWriter h w)) =
    lastStatus code cs' /\
  (Forall (fun x : HandlerCall => forall code', x <> DoWriteHeader code') cs ->
   statusCode (runHandler cs (newWriter h w)) = Http.StatusOK).
Proof.
  split; [apply runHandler_statusCode|]. split.
  - rewrite runHandler_statusCode. unfold lastStatus. rewrite fold_left_app. reflexivity.
  - intros Hno. rewrite runHandler_statusCode. simpl.
    generalize Http.StatusOK. induction Hno as [|c cs Hc _ IH]; intros st; [reflexivity|].
    simpl. destruct c; try apply IH. exfalso. exact (Hc code0 eq_refl).
Qed.

(** X3.  The writer is marked hijacked exactly when the handler called
    [Hijack] and the underlying writer is an [http.Hijacker]; on a writer
    that is not, [Hijack] fails with [ErrNotSupported] and changes
    nothing. *)
Theorem hijacked_iff_Hijack_called_and_supported
        (h : ResponseBufferMiddleware) (w : Http.ResponseWriter) (cs : list HandlerCall) :
  hijacked (runHandler cs (newWriter h w)) = Http.hijacker w && calledHijack cs /\
  (Http.hijacker w = false ->
   Hijack (runHandler cs (newWriter h w)) =
     (runHandler cs (newWriter h w), Some ErrNotSupported)).
Proof.
  split.
  - rewrite runHandler_hijacked_eq. reflexivity.
  - intros Hno. unfold Hijack.
    destruct (runHandler_underlying cs (newWriter h w)) as (_ & -> & _).
    simpl. rewrite Hno. reflexivity.
Qed.

(** X4.  When the buffer has not overflowed and the connection was not
    hijacked, the middleware writes the header with the replayed status on
    the underlying writer, after the header mutations of the handler, and
    hands the writer to the buffer's [Send].  The response is what [Send]
    leaves, followed by [http.Error] with status 500 when [Send] failed; the
    log is empty on success, one INFO record for the overflow error and one
    ERROR record for any other error. *)
Theorem ServeHTTP_sends_the_buffer
        (h : ResponseBufferMiddleware) (w : Http.ResponseWriter) (r : Http.Request) :
  Buffer_Overflowed (buffer (runHandler (next h r) (newWriter h w))) = false ->
  Http.hijacker w && calledHijack (next h r) = false ->
  sendErr (ServeHTTP h w r) =
    snd (Buffer_Send (buffer (runHandler (next h r) (newWriter h w)))
           (Http.mkResponseWriter (Http.hijacker w) (Http.hijackErr w)
              (Http.calls w ++ underlyingCalls (Http.hijacker w) (next h r)
               ++ [Http.WriteHeader (lastStatus Http.StatusOK (next h r))]))) /\
  writer (ServeHTTP h w r) =
    (let sent :=
       snd (fst (Buffer_Send (buffer (runHandler (next h r) (newWriter h w)))
                   (Http.mkResponseWriter (Http.hijacker w) (Http.hijackErr w)
                      (Http.calls w ++ underlyingCalls (Http.hijacker w) (next h r)
                       ++ [Http.WriteHeader (lastStatus Http.StatusOK (next h r))])))) in
     match sendErr (ServeHTTP h w r) with
     | None => sent
     | Some _ =>
         Http.call (Http.Error "Internal Server Error" Http.StatusInternalServerError) sent
     end) /\
  logged (ServeHTTP h w r) =
    match sendErr (ServeHTTP h w r) with
    | None => []
    | Some e =>
        if decide (e = ErrMaximumSizeExceeded)
        then [Slog.Info "Response exceeded max response limit"
                        [("path", Http.URL_Path r)]]
        else [Slog.Error "Error sending response"
                         [("path", Http.URL_Path r); ("error", errorString e)]]
    end.
Proof.
  intros Hover Hhij.
  set (bw := runHandler (next h r) (newWriter h w)) in *.
  assert (Hj : hijacked bw = false).
  { unfold bw. rewrite runHandler_hijacked_eq. exact Hhij. }
  destruct (runHandler_underlying (next h r) (newWriter h w)) as (Hc & Hh & He).
  fold bw in Hc, Hh, He. simpl in Hc, Hh, He.
  assert (Hw0 : Http.call (Http.WriteHeader (statusCode bw)) (ResponseWriter bw) =
                Http.mkResponseWriter (Http.hijacker w) (Http.hijackErr w)
                  (Http.calls w ++ underlyingCalls (Http.hijacker w) (next h r)
                   ++ [Http.WriteHeader (lastStatus Http.StatusOK (next h r))])).
  { unfold Http.call. rewrite Hc, Hh, He, <- app_assoc. unfold bw.
    rewrite runHandler_statusCode. reflexivity. }
  unfold ServeHTTP, Send. fold bw. rewrite Hover, Hj, Hw0.
  destruct (Buffer_Send (buffer bw) _) as [[b w1] [e|]]; simpl; [|auto].
  destruct (decide (e = ErrMaximumSizeExceeded)) as [Heq|Hne]; simpl.
  - rewrite decide_True by exact Heq. auto.
  - rewrite decide_False by exact Hne. auto.
Qed.

(** X5.  After a hijack, with a buffer that has not overflowed, the
    middleware adds nothing: the underlying writer has seen the header
    mutations and the [Hijack] calls of the handler and nothing else, [Send]
    returns no error and nothing is logged. *)
Theorem ServeHTTP_leaves_hijacked_connection
        (h : ResponseBufferMiddleware) (w : Http.ResponseWriter) (r : Http.Request) :
  Http.hijacker w = true ->
  calledHijack (next h r) = true ->
  Buffer_Overflowed (buffer (runHandler (next h r) (newWriter h w))) = false ->
  sendErr (ServeHTTP h w r) = None /\
  logged (ServeHTTP h w r) = [] /\
  Http.calls (writer (ServeHTTP h w r)) =
    Http.calls w ++ underlyingCalls true (next h r) /\
  Http.status (writer (ServeHTTP h w r)) = Http.status w.
Proof.
  intros Hh Hcalled Hover.
  set (bw := runHandler (next h r) (newWriter h w)) in *.
  assert (Hj : hijacked bw = true).
  { unfold bw. rewrite runHandler_hijacked_eq. simpl. rewrite Hh, Hcalled. reflexivity. }
  destruct (runHandler_underlying (next h r) (newWriter h w)) as (Hc & _ & _).
  fold bw in Hc. simpl in Hc. rewrite Hh in Hc.
  unfold ServeHTTP, Send. fold bw. rewrite Hover, Hj. simpl.
  repeat split; [exact Hc|]. apply ResponseBufferFacts.runHandler_status.
Qed.

End Facts.

(** *** Runs *)

(** A handler that sets a header and writes, and never calls
    [WriteHeader]. *)
Lemma replayed_status_is_last_WriteHeader_witness :
  Forall (fun x : HandlerCall => forall code', x <> DoWriteHeader code')
         [DoHeaderSet "X-Version" "1"; DoWrite (Scenario.bytes "hello")] /\
  statusCode (runHandler [DoHeaderSet "X-Version" "1"; DoWrite (Scenario.bytes "hello")]
                (newWriter (Buffer := SpecBuffer.Buffer)
                   (Scenario.limited Scenario.smallHandler) Scenario.conn)) = 200.
Proof.
  assert (Hno : Forall (fun x : HandlerCall => forall code', x <> DoWriteHeader code')
                       [DoHeaderSet "X-Version" "1"; DoWrite (Scenario.bytes "hello")]).
  { repeat (constructor; [intros code'; discriminate|]). constructor. }
  split; [exact Hno|].
  exact (proj2 (proj2 (replayed_status_is_last_WriteHeader
                         (Buffer := SpecBuffer.Buffer)
                         (Scenario.limited Scenario.smallHandler) Scenario.conn
                         [DoHeaderSet "X-Version" "1"; DoWrite (Scenario.bytes "hello")]
                         [] 0)) Hno).
Defined.

(** An upgrade attempted on a writer that is no [http.Hijacker]. *)
Lemma hijacked_iff_Hijack_called_and_supported_witness :
  Http.hijacker Scenario.stream = false /\
  Hijack (runHandler (Scenario.websocketHandler (Scenario.get "/cable"))
            (newWriter (Buffer := SpecBuffer.Buffer)
               (Scenario.limited Scenario.websocketHandler) Scenario.stream))
  = (runHandler (Scenario.websocketHandler (Scenario.get "/cable"))
       (newWriter (Buffer := SpecBuffer.Buffer)
          (Scenario.limited Scenario.websocketHandler) Scenario.stream),
     Some ErrNotSupported).
Proof.
  split; [reflexivity|].
  exact (proj2 (hijacked_iff_Hijack_called_and_supported
                  (Buffer := SpecBuffer.Buffer)
                  (Scenario.limited Scenario.websocketHandler) Scenario.stream
                  (Scenario.websocketHandler (Scenario.get "/cable"))) eq_refl).
Defined.

(** A response that fits the buffer. *)
Lemma ServeHTTP_sends_the_buffer_witness :
  Buffer_Overflowed
    (buffer (runHandler (Scenario.smallHandler (Scenario.get "/"))
               (newWriter (Buffer := SpecBuffer.Buffer)
                  (Scenario.limited Scenario.smallHandler) Scenario.conn))) = false /\
  Http.hijacker Scenario.conn && calledHijack (Scenario.smallHandler (Scenario.get "/"))
    = false /\
  Http.calls (writer (ServeHTTP (Buffer := SpecBuffer.Buffer)
                        (Scenario.limited Scenario.smallHandler)
                        Scenario.conn (Scenario.get "/")))
    = [Http.HeaderSet "Content-Type" "text/plain"; Http.WriteHeader 201;
       Http.Write (Scenario.bytes "hello")] /\
  logged (ServeHTTP (Buffer := SpecBuffer.Buffer)
            (Scenario.limited Scenario.smallHandler) Scenario.conn (Scenario.get "/"))
    = [].
Proof.
  assert (Hfits :
            Buffer_Overflowed
              (buffer (runHandler (Scenario.smallHandler (Scenario.get "/"))
                         (newWriter (Buffer := SpecBuffer.Buffer)
                            (Scenario.limited Scenario.smallHandler) Scenario.conn)))
            = false) by reflexivity.
  split; [exact Hfits|]. split; [reflexivity|].
  destruct (ServeHTTP_sends_the_buffer (Buffer := SpecBuffer.Buffer)
              (Scenario.limited Scenario.smallHandler) Scenario.conn
              (Scenario.get "/") Hfits eq_refl) as (He & Hw & Hl).
  split; [rewrite Hw, He|rewrite Hl, He]; reflexivity.
Defined.

(** A connection taken over by the handler. *)
Lemma ServeHTTP_leaves_hijacked_connection_witness :
  Http.hijacker Scenario.conn = true /\
  calledHijack (Scenario.websocketHandler (Scenario.get "/cable")) = true /\
  Buffer_Overflowed
    (buffer (runHandler (Scenario.websocketHandler (Scenario.get "/cable"))
               (newWriter (Buffer := SpecBuffer.Buffer)
                  (Scenario.limited Scenario.websocketHandler) Scenario.conn))) = false /\
  Http.calls (writer (ServeHTTP (Buffer := SpecBuffer.Buffer)
                        (Scenario.limited Scenario.websocketHandler)
                        Scenario.conn (Scenario.get "/cable")))
    = [Http.HeaderSet "Upgrade" "websocket"; Http.Hijack] /\
  sendErr (ServeHTTP (Buffer := SpecBuffer.Buffer)
             (Scenario.limited Scenario.websocketHandler)
             Scenario.conn (Scenario.get "/cable")) = None.
Proof.
  assert (Hfits :
            Buffer_Overflowed
              (buffer (runHandler (Scenario.websocketHandler (Scenario.get "/cable"))
                         (newWriter (Buffer := SpecBuffer.Buffer)
                            (Scenario.limited Scenario.websocketHandler) Scenario.conn)))
            = false) by reflexivity.
  split; [reflexivity|]. split; [reflexivity|]. split; [exact Hfits|].
  destruct (ServeHTTP_leaves_hijacked_connection (Buffer := SpecBuffer.Buffer)
              (Scenario.limited Scenario.websocketHandler) Scenario.conn
              (Scenario.get "/cable") eq_refl eq_refl Hfits) as (He & _ & Hc & _).
  split; [exact Hc|exact He].
Defined.

End HandlerRunFacts.

(** ** Overflow: what the client receives *)

Module OverflowFacts.

Import ResponseBuffer HandlerRun.

Lemma served_app (cs cs' : list Http.Call) :
  existsb Http.isHijack cs = false -> Http.served (cs ++ cs') = cs ++ Http.served cs'.
Proof.
  induction cs as [|c cs IH]; simpl; [reflexivity|].
  destruct (Http.isHijack c); simpl; [discriminate|].
  intros Hcs. rewrite (IH Hcs). reflexivity.
Qed.

Lemma served_hijacked (cs cs' : list Http.Call) :
  existsb Http.isHijack cs = true -> Http.served (cs ++ cs') = Http.served cs.
Proof.
  induction cs as [|c cs IH]; simpl; [discriminate|].
  destruct (Http.isHijack c); simpl; [reflexivity|].
  intros Hcs. rewrite (IH Hcs). reflexivity.
Qed.

Lemma statusOf_served (cs : list Http.Call) :
  Http.statusOf cs = None -> Http.statusOf (Http.served cs) = None.
Proof.
  induction cs as [|c cs IH]; simpl; [reflexivity|].
  destruct c; simpl; try discriminate; auto.
Qed.

Lemma statusOf_silent (cs : list Http.Call) :
  Forall (fun x : Http.Call => Http.commits x = None) cs -> Http.statusOf cs = None.
Proof.
  induction 1 as [|c cs Hc _ IH]; simpl; [reflexivity|]. rewrite Hc. exact IH.
Qed.

Lemma underlyingCalls_hijack (hij : bool) (cs : list HandlerCall) :
  existsb Http.isHijack (underlyingCalls hij cs) = hij && calledHijack cs.
Proof.
  unfold underlyingCalls, calledHijack.
  induction cs as [|c cs IH]; simpl; [rewrite andb_false_r; reflexivity|].
  rewrite existsb_app, IH.
  destruct c, hij; simpl; rewrite ?andb_false_r; reflexivity.
Qed.

Section Facts.

Context {Buffer : Type} `{BufferOps Buffer}.

Implicit Type h : ResponseBufferMiddleware.

(** C2 (amended).  When the buffer is overflowed after the downstream
    handler has run, [Send] reports the overflow, the middleware logs
    exactly one record, at INFO level, saying that the response exceeded
    the max response limit, and it answers with [http.Error] and status 500
    on the writer it was given.  On a fresh connection the client receives
    that 500 when the handler has not hijacked the connection; when it has,
    the server drops the answer and the client receives no status line from
    it. *)
Theorem ServeHTTP_overflow_500
        h (w : Http.ResponseWriter) (r : Http.Request) :
  Http.status w = None ->
  Http.taken w = false ->
  Buffer_Overflowed (buffer (runHandler (next h r) (newWriter h w))) = true ->
  sendErr (ServeHTTP h w r) = Some ErrMaximumSizeExceeded /\
  Http.calls (writer (ServeHTTP h w r)) =
    Http.calls (ResponseWriter (runHandler (next h r) (newWriter h w)))
    ++ [Http.Error "Internal Server Error" Http.StatusInternalServerError] /\
  logged (ServeHTTP h w r) =
    [Slog.Info "Response exceeded max response limit" [("path", Http.URL_Path r)]] /\
  (Http.hijacker w && calledHijack (next h r) = false ->
   Http.received (writer (ServeHTTP h w r)) = Some Http.StatusInternalServerError) /\
  (Http.hijacker w && calledHijack (next h r) = true ->
   Http.received (writer (ServeHTTP h w r)) = None).
Proof.
  intros Hfresh Hours Hover.
  assert (Hcalls : Http.calls (writer (ServeHTTP h w r)) =
                   Http.calls (ResponseWriter (runHandler (next h r) (newWriter h w)))
                   ++ [Http.Error "Internal Server Error"
                                  Http.StatusInternalServerError]).
  { unfold ServeHTTP, Send. rewrite Hover. reflexivity. }
  split; [unfold ServeHTTP, Send; rewrite Hover; reflexivity|].
  split; [exact Hcalls|].
  split; [unfold ServeHTTP, Send; rewrite Hover; reflexivity|].
  destruct (HandlerRunFacts.runHandler_underlying (next h r) (newWriter h w))
    as (Hc & _ & _).
  simpl in Hc. unfold Http.received. rewrite Hcalls, Hc.
  pose proof (statusOf_silent _ (HandlerRunFacts.underlyingCalls_silent
                                   (Http.hijacker w) (next h r))) as Hnone.
  pose proof (underlyingCalls_hijack (Http.hijacker w) (next h r)) as Hhij.
  unfold Http.taken in Hours. unfold Http.status in Hfresh.
  rewrite <- app_assoc, (served_app _ _ Hours), HttpFacts.statusOf_app, Hfresh.
  split; intros Hcase; rewrite Hcase in Hhij.
  - rewrite (served_app _ _ Hhij), HttpFacts.statusOf_app, Hnone. reflexivity.
  - rewrite (served_hijacked _ _ Hhij). apply statusOf_served. exact Hnone.
Qed.

End Facts.

(** *** Runs *)

(** Scenario S6: a limit of 1024 bytes, 2000 bytes written. *)
Lemma ServeHTTP_overflow_500_witness :
  Http.status Scenario.conn = None /\
  Http.taken Scenario.conn = false /\
  Buffer_Overflowed
    (buffer (runHandler (Scenario.bigHandler (Scenario.get "/big"))
                        (newWriter (Buffer := SpecBuffer.Buffer)
                           (Scenario.limited Scenario.bigHandler) Scenario.conn)))
    = true /\
  Http.received (writer (ServeHTTP (Buffer := SpecBuffer.Buffer)
                           (Scenario.limited Scenario.bigHandler)
                           Scenario.conn (Scenario.get "/big")))
    = Some 500 /\
  logged (ServeHTTP (Buffer := SpecBuffer.Buffer)
            (Scenario.limited Scenario.bigHandler) Scenario.conn (Scenario.get "/big"))
    = [Slog.Info "Response exceeded max response limit" [("path", "/big")]].
Proof.
  assert (Hover :
            Buffer_Overflowed
              (buffer (runHandler (Scenario.bigHandler (Scenario.get "/big"))
                         (newWriter (Buffer := SpecBuffer.Buffer)
                            (Scenario.limited Scenario.bigHandler) Scenario.conn)))
            = true) by reflexivity.
  split; [reflexivity|]. split; [reflexivity|]. split; [exact Hover|].
  destruct (ServeHTTP_overflow_500 (Buffer := SpecBuffer.Buffer)
              (Scenario.limited Scenario.bigHandler) Scenario.conn
              (Scenario.get "/big") eq_refl eq_refl Hover)
    as (_ & _ & Hlog & Hreceived & _).
  split; [exact (Hreceived eq_refl)|exact Hlog].
Defined.

(** C2, as stated, fails: a handler that writes 2000 bytes against a limit
    of 1024 and then hijacks the connection makes the buffer overflow, the
    middleware logs the overflow and calls [http.Error], and the client
    receives no status 500, since the call is made on a hijacked
    connection. *)
Lemma overflow_after_hijack_counterexample :
  Buffer_Overflowed
    (buffer (runHandler (Scenario.upgradingHandler (Scenario.get "/ws"))
               (newWriter (Buffer := SpecBuffer.Buffer)
                  (Scenario.limited Scenario.upgradingHandler) Scenario.conn))) = true /\
  Http.calls (writer (ServeHTTP (Buffer := SpecBuffer.Buffer)
                        (Scenario.limited Scenario.upgradingHandler)
                        Scenario.conn (Scenario.get "/ws")))
    = [Http.Hijack; Http.Error "Internal Server Error" 500] /\
  Http.received (writer (ServeHTTP (Buffer := SpecBuffer.Buffer)
                           (Scenario.limited Scenario.upgradingHandler)
                           Scenario.conn (Scenario.get "/ws")))
    = None.
Proof. repeat split. Qed.

End OverflowFacts.

(** ** The service: every way a request can end *)

Module ServiceRunFacts.

Import Http PauseControl Service.

Section Facts.

Context {TargetOptions : Type} `{Json.Codec TargetOptions}.
Variable validTargetAddress : string -> bool.
Variable IsHealthCheckRequest : option (Target.Target TargetOptions) -> Request -> bool.
Variable roundTrip : Target.Target TargetOptions -> Request -> list Call.
Variable sha256Hex : string -> string.
Variable pathJoin : string -> string -> string.

Local Abbreviation ServeHTTP := (Service.ServeHTTP IsHealthCheckRequest roundTrip).
Local Abbreviation handlePausedAndStoppedRequests :=
  (Service.handlePausedAndStoppedRequests IsHealthCheckRequest).
Local Abbreviation UpdateOptions := (Service.UpdateOptions sha256Hex pathJoin).
Local Abbreviation NewService :=
  (Service.NewService (TargetOptions := TargetOptions) sha256Hex pathJoin).
Local Abbreviation createCertManager := (Service.createCertManager sha256Hex pathJoin).
Local Abbreviation UnmarshalJSON :=
  (Service.UnmarshalJSON validTargetAddress sha256Hex pathJoin).

Implicit Type σ : @World TargetOptions.
Implicit Type s : @Service.Service TargetOptions.
Implicit Type r : Request.

Ltac run :=
  unfold Service.ServeHTTP, Service.serve, Service.claimAndSend,
    Service.handlePausedAndStoppedRequests, Service.redirectToHTTPS,
    Service.recordServiceNameForRequest, Service.recordHeadersForRequest,
    Service.ClaimTarget, Service.SendRequest,
    mbind, mret, Service.M_bind, Service.M_ret,
    getService, getStore, setService, setStore, onWriter, slog, forward,
    ActiveTarget;
  simpl.

Arguments Service.recorded : simpl never.

(** The pause logic ends in one of four ways. *)
Lemma handlePaused_cases r σ :
  (State (pauseControl (service σ)) <> PauseStateRunning /\
   IsHealthCheckRequest (active (service σ)) r = true /\
   handlePausedAndStoppedRequests r σ = (true, snd (onWriter (WriteHeader StatusOK) σ)))
  \/ (handlePausedAndStoppedRequests r σ = (false, σ))
  \/ (handlePausedAndStoppedRequests r σ =
        (true, snd (onWriter (WriteHeader StatusServiceUnavailable) σ)))
  \/ (Wait (pauseControl (service σ)) = PauseWaitActionTimedOut /\
      handlePausedAndStoppedRequests r σ =
        (true, snd (onWriter (WriteHeader StatusGatewayTimeout)
                      (snd (slog (Slog.Warn "Rejecting request due to expired pause"
                                    [("service", name (service σ));
                                     ("path", URL_Path r)]) σ))))).
Proof.
  run.
  destruct (bool_decide (State (pauseControl (service σ)) <> PauseStateRunning)) eqn:Hs;
    simpl.
  - apply bool_decide_eq_true in Hs.
    destruct (IsHealthCheckRequest (active (service σ)) r) eqn:Hp; simpl.
    + left. auto.
    + destruct (Wait _) eqn:Hw; simpl; [right; left|right; right; right|right; right; left];
        auto.
  - destruct (Wait _) eqn:Hw; simpl; [right; left|right; right; right|right; right; left];
      auto.
Qed.

(** The world after a claim that succeeded and the exchange with the
    upstream that followed. *)
Lemma claimAndSend_success r σ (t : Target.Target TargetOptions) :
  active (service σ) = Some t ->
  Target.state t <> Target.TargetStateDraining ->
  snd (Service.claimAndSend roundTrip r σ) =
    mkWorld (service σ)
            (mkResponseWriter (hijacker (writer σ)) (hijackErr (writer σ))
               (calls (writer σ)
                ++ roundTrip (Target.setInflight t (Target.inflight t + 1)) r))
            (match asStringPtr (Value (ctx r) contextKeyTarget) with
             | Some p => storeString p (Target.address t) (store σ)
             | None => store σ
             end)
            (log σ)
            (upstream σ ++ [(Target.address t, r)]).
Proof.
  intros Ha Hd. run. unfold Target.StartRequest. rewrite Ha.
  destruct (decide (Target.state t = Target.TargetStateDraining)); [contradiction|].
  simpl. f_equal. destruct (service σ) as [sn sh so sa sp sc]; simpl in *. subst sa.
  unfold setActive, Target.setInflight. simpl. destruct t as [ad op st fl]; simpl.
  replace (fl + 1 - 1) with fl by lia. reflexivity.
Qed.

Lemma serve_unfold r σ :
  snd (Service.serve IsHealthCheckRequest roundTrip r σ) =
  if RequireTLS (options (service σ)) && negb (TLS r)
  then snd (Service.redirectToHTTPS r σ)
  else
    if fst (handlePausedAndStoppedRequests r σ)
    then snd (handlePausedAndStoppedRequests r σ)
    else snd (Service.claimAndSend roundTrip r (snd (handlePausedAndStoppedRequests r σ))).
Proof.
  unfold Service.serve. unfold mbind at 1 2, Service.M_bind at 1 2, getService. simpl.
  destruct (RequireTLS (options (service σ)) && negb (TLS r)); [reflexivity|].
  destruct (handlePausedAndStoppedRequests r σ) as [[] σ1]; reflexivity.
Qed.

(** Every way [ServeHTTP] can end, as the world it leaves behind, in terms
    of the world after the recording steps. *)
Lemma ServeHTTP_cases r σ :
  (RequireTLS (options (service σ)) && negb (TLS r) = true /\
   snd (ServeHTTP r σ) = snd (Service.redirectToHTTPS r (recorded r σ)))
  \/ (RequireTLS (options (service σ)) && negb (TLS r) = false /\
      fst (handlePausedAndStoppedRequests r (recorded r σ)) = true /\
      snd (ServeHTTP r σ) = snd (handlePausedAndStoppedRequests r (recorded r σ)))
  \/ (RequireTLS (options (service σ)) && negb (TLS r) = false /\
      handlePausedAndStoppedRequests r (recorded r σ) = (false, recorded r σ) /\
      (active (service σ) = None \/
       exists t, active (service σ) = Some t /\
                 Target.state t = Target.TargetStateDraining) /\
      snd (ServeHTTP r σ) =
        snd (onWriter (Error "Service not available" StatusServiceUnavailable)
                      (recorded r σ)))
  \/ (RequireTLS (options (service σ)) && negb (TLS r) = false /\
      handlePausedAndStoppedRequests r (recorded r σ) = (false, recorded r σ) /\
      exists t, active (service σ) = Some t /\
                Target.state t <> Target.TargetStateDraining /\
                snd (ServeHTTP r σ) = snd (Service.claimAndSend roundTrip r (recorded r σ))).
Proof.
  destruct (ServiceFacts.recorded_frame r σ) as (Hs & Hw & Hl & Hu).
  rewrite (ServiceFacts.ServeHTTP_serve IsHealthCheckRequest roundTrip).
  rewrite (serve_unfold r (recorded r σ)), Hs.
  destruct (RequireTLS (options (service σ)) && negb (TLS r)) eqn:Hgate; [left; auto|].
  right.
  destruct (fst (handlePausedAndStoppedRequests r (recorded r σ))) eqn:Hh; [left; auto|].
  right.
  pose proof (ServiceFacts.handlePaused_false IsHealthCheckRequest r (recorded r σ) Hh) as Hf.
  rewrite Hf. simpl.
  destruct (active (service σ)) as [t|] eqn:Ha.
  - destruct (decide (Target.state t = Target.TargetStateDraining)) as [Hd|Hd].
    + left. split; [reflexivity|]. split; [reflexivity|]. split; [right; eauto|].
      unfold Service.claimAndSend, mbind, Service.M_bind.
      rewrite (ServiceFacts.ClaimTarget_failure r (recorded r σ)); [reflexivity|].
      apply ServiceFacts.ClaimTarget_fails_iff. rewrite Hs, Ha. right. eauto.
    + right. split; [reflexivity|]. split; [reflexivity|]. exists t. auto.
  - left. split; [reflexivity|]. split; [reflexivity|]. split; [left; reflexivity|].
    unfold Service.claimAndSend, mbind, Service.M_bind.
    rewrite (ServiceFacts.ClaimTarget_failure r (recorded r σ)); [reflexivity|].
    apply ServiceFacts.ClaimTarget_fails_iff. rewrite Hs, Ha. left. reflexivity.
Qed.

Lemma handlePaused_frame r σ :
  service (snd (handlePausedAndStoppedRequests r σ)) = service σ /\
  store (snd (handlePausedAndStoppedRequests r σ)) = store σ /\
  upstream (snd (handlePausedAndStoppedRequests r σ)) = upstream σ.
Proof.
  destruct (handlePaused_cases r σ) as [(_ & _ & ->)|[->|[->|(_ & ->)]]]; simpl; auto.
Qed.

Lemma store_recorded r σ :
  store (recorded r σ) =
  match asStringsPtr (Value (ctx r) contextKeyHeaders) with
  | Some q => storeStrings q (LogHeaders (options (service σ)))
  | None => fun st => st
  end (match asStringPtr (Value (ctx r) contextKeyService) with
       | Some p => storeString p (name (service σ)) (store σ)
       | None => store σ
       end).
Proof.
  unfold Service.recorded. run.
  destruct (asStringPtr _), (asStringsPtr _); reflexivity.
Qed.

Lemma createCertManager_None s :
  createCertManager s = None <-> RequireTLS (options s) = false.
Proof.
  unfold Service.createCertManager, RequireTLS.
  destruct (decide (TLSHostname (options s) = EmptyString)) as [He|Hne].
  - rewrite bool_decide_eq_false_2 by (intros Hn; exact (Hn He)). tauto.
  - rewrite bool_decide_eq_true_2 by exact Hne. split; discriminate.
Qed.

(** X6.  A service has a certificate manager exactly when its options
    require TLS: this holds for a new service, after every [UpdateOptions]
    and after every successful [UnmarshalJSON]; the manager accepts the
    configured host name only and caches under [ScopedCachePath]. *)
Theorem certManager_follows_options
        (name' host' : string) (options' : ServiceOptions) s (data : Json.JSON) :
  (certManager (NewService name' host' options') = None <->
   RequireTLS options' = false) /\
  (certManager (UpdateOptions s options') = None <-> RequireTLS options' = false) /\
  (snd (UnmarshalJSON s data) = None ->
   (certManager (fst (UnmarshalJSON s data)) = None <->
    RequireTLS (options (fst (UnmarshalJSON s data))) = false)) /\
  (forall cm, certManager (UpdateOptions s options') = Some cm ->
              HostPolicy cm = TLSHostname options' /\
              Cache cm = pathJoin (ACMECachePath options')
                                  (sha256Hex (ACMEDirectory options')) /\
              DirectoryURL cm = ACMEDirectory options').
Proof.
  split; [exact (createCertManager_None
                   (mkService name' host' options' None NewPauseControl None))|].
  split; [exact (createCertManager_None
                   (mkService (name s) (host s) options' (active s)
                              (pauseControl s) (certManager s)))|].
  split.
  - unfold Service.UnmarshalJSON.
    destruct (Json.decode data _) as [ms|]; [|discriminate].
    destruct (Target.NewTarget _ _ _) as [t|e]; [|discriminate].
    intros _. simpl. apply createCertManager_None.
  - intros cm. unfold Service.UpdateOptions, Service.createCertManager. simpl.
    destruct (decide _); [discriminate|]. intros [= <-]. simpl. auto.
Qed.

(** X7.  When [ServeHTTP] has returned, the service is as it was before the
    request: no path assigns a field of the service, and a request that was
    claimed is no longer counted in flight. *)
Theorem ServeHTTP_leaves_service r σ :
  service (snd (ServeHTTP r σ)) = service σ.
Proof.
  destruct (ServiceFacts.recorded_frame r σ) as (Hs & Hw & Hl & Hu).
  destruct (ServeHTTP_cases r σ)
    as [(_ & ->)|[(_ & _ & ->)|[(_ & _ & _ & ->)|(_ & _ & t & Ha & Hd & ->)]]].
  - run. exact Hs.
  - destruct (handlePaused_frame r (recorded r σ)) as (-> & _). exact Hs.
  - run. exact Hs.
  - rewrite (claimAndSend_success r (recorded r σ) t) by (rewrite ?Hs; assumption).
    simpl. exact Hs.
Qed.

(** X8.  [ServeHTTP] ends in exactly one of these ways.  It answers itself
    and forwards nothing: with the redirect to HTTPS, with a bare status
    200, 503 or 504 from the pause logic, or with the 503 error page when
    there is no target to claim.  Or it forwards the request once, to the
    address of the active target, which is not draining, and writes only
    what the proxy writes. *)
Theorem ServeHTTP_outcomes r σ :
  (upstream (snd (ServeHTTP r σ)) = upstream σ /\
   (calls (writer (snd (ServeHTTP r σ))) =
      calls (writer σ)
      ++ [HeaderSet "Connection" "close";
          Redirect (Method r) ("https://" +:+ redirectHost (Host r) +:+ RequestURI r)
                   StatusMovedPermanently]
    \/ (exists code, (code = StatusOK \/ code = StatusServiceUnavailable \/
                      code = StatusGatewayTimeout) /\
                     calls (writer (snd (ServeHTTP r σ))) =
                       calls (writer σ) ++ [WriteHeader code])
    \/ calls (writer (snd (ServeHTTP r σ))) =
         calls (writer σ) ++ [Error "Service not available" StatusServiceUnavailable]))
  \/ (exists t, active (service σ) = Some t /\
                Target.state t <> Target.TargetStateDraining /\
                upstream (snd (ServeHTTP r σ)) = upstream σ ++ [(Target.address t, r)] /\
                calls (writer (snd (ServeHTTP r σ))) =
                  calls (writer σ)
                  ++ roundTrip (Target.setInflight t (Target.inflight t + 1)) r).
Proof.
  destruct (ServiceFacts.recorded_frame r σ) as (Hs & Hw & Hl & Hu).
  destruct (ServeHTTP_cases r σ)
    as [(_ & ->)|[(_ & Hh & ->)|[(_ & _ & _ & ->)|(_ & _ & t & Ha & Hd & ->)]]].
  - left. run. rewrite Hu, Hw, <- app_assoc. auto.
  - left.
    destruct (handlePaused_cases r (recorded r σ))
      as [(_ & _ & He)|[He|[He|(_ & He)]]]; rewrite He in *; simpl in *;
      rewrite ?Hu, ?Hw; try discriminate; (split; [reflexivity|]); right; left.
    + exists StatusOK. auto.
    + exists StatusServiceUnavailable. auto.
    + exists StatusGatewayTimeout. auto.
  - left. run. rewrite Hu, Hw. auto.
  - right. exists t.
    rewrite (claimAndSend_success r (recorded r σ) t) by (rewrite ?Hs; assumption).
    simpl. rewrite Hu, Hw. auto.
Qed.

Lemma handlePaused_log r σ :
  log (snd (handlePausedAndStoppedRequests r σ)) =
    log σ ++
    (if negb (bool_decide (State (pauseControl (service σ)) <> PauseStateRunning)
              && IsHealthCheckRequest (ActiveTarget (service σ)) r)
        && match Wait (pauseControl (service σ)) with
           | PauseWaitActionTimedOut => true
           | _ => false
           end
     then [Slog.Warn "Rejecting request due to expired pause"
                     [("service", name (service σ)); ("path", URL_Path r)]]
     else []) /\
  (fst (handlePausedAndStoppedRequests r σ) = false ->
   negb (bool_decide (State (pauseControl (service σ)) <> PauseStateRunning)
         && IsHealthCheckRequest (ActiveTarget (service σ)) r)
   && match Wait (pauseControl (service σ)) with
      | PauseWaitActionTimedOut => true
      | _ => false
      end = false).
Proof.
  run.
  destruct (bool_decide _ && IsHealthCheckRequest _ r); simpl.
  - rewrite app_nil_r. auto.
  - destruct (Wait _); simpl; rewrite ?app_nil_r; auto; split; auto; discriminate.
Qed.

(** X9.  A request that [ServeHTTP] does not forward is answered without a
    log record, except for one warning when a request that is neither
    redirected nor answered as a health check waited for a paused service
    until the pause expired. *)
Theorem ServeHTTP_logs_only_expired_pause r σ :
  upstream (snd (ServeHTTP r σ)) = upstream σ ->
  log (snd (ServeHTTP r σ)) =
  log σ ++
  (if negb (RequireTLS (options (service σ)) && negb (TLS r))
      && (negb (bool_decide (State (pauseControl (service σ)) <> PauseStateRunning)
                && IsHealthCheckRequest (ActiveTarget (service σ)) r)
          && match Wait (pauseControl (service σ)) with
             | PauseWaitActionTimedOut => true
             | _ => false
             end)
   then [Slog.Warn "Rejecting request due to expired pause"
                   [("service", name (service σ)); ("path", URL_Path r)]]
   else []).
Proof.
  intros Hkept.
  destruct (ServiceFacts.recorded_frame r σ) as (Hs & Hw & Hl & Hu).
  destruct (handlePaused_log r (recorded r σ)) as [Hlog Hfalse].
  rewrite Hs, Hl in Hlog. rewrite Hs in Hfalse.
  destruct (ServeHTTP_cases r σ)
    as [(Hgate & He)|[(Hgate & Hh & He)|[(Hgate & Hh & _ & He)|(_ & _ & t & Ha & Hd & He)]]];
    rewrite He in *; clear He.
  - rewrite Hgate. run. rewrite Hl, app_nil_r. reflexivity.
  - rewrite Hgate. exact Hlog.
  - rewrite Hgate, Hh in *. rewrite (Hfalse eq_refl), app_nil_r. simpl. exact Hl.
  - exfalso.
    rewrite (claimAndSend_success r (recorded r σ) t) in Hkept
      by (rewrite ?Hs; assumption).
    simpl in Hkept. rewrite Hu in Hkept.
    rewrite <- (app_nil_r (upstream σ)) in Hkept at 2.
    apply app_inv_head in Hkept. discriminate Hkept.
Qed.

(** X10.  What the recording steps wrote is still there when [ServeHTTP]
    returns, however the request ended: the headers cell holds the
    [LogHeaders] of the service, and the service cell holds its name unless
    the [target] slot points to the same cell. *)
Theorem recorded_values_survive r σ :
  (forall q, Value (ctx r) contextKeyHeaders = Some (StringsPtr q) ->
             stringsCells (store (snd (ServeHTTP r σ))) !! q =
               Some (LogHeaders (options (service σ)))) /\
  (forall p, Value (ctx r) contextKeyService = Some (StringPtr p) ->
             (forall p', Value (ctx r) contextKeyTarget = Some (StringPtr p') -> p' <> p) ->
             stringCells (store (snd (ServeHTTP r σ))) !! p = Some (name (service σ))).
Proof.
  destruct (ServiceFacts.recorded_frame r σ) as (Hs & Hw & Hl & Hu).
  pose proof (store_recorded r σ) as Hst.
  assert (Hstore : store (snd (ServeHTTP r σ)) = store (recorded r σ) \/
                   store (snd (ServeHTTP r σ)) =
                     match asStringPtr (Value (ctx r) contextKeyTarget) with
                     | Some p => storeString p
                                   (match active (service σ) with
                                    | Some t => Target.address t
                                    | None => EmptyString
                                    end) (store (recorded r σ))
                     | None => store (recorded r σ)
                     end).
  { destruct (ServeHTTP_cases r σ)
      as [(_ & ->)|[(_ & _ & ->)|[(_ & _ & _ & ->)|(_ & _ & t & Ha & Hd & ->)]]].
    - left. reflexivity.
    - left. apply handlePaused_frame.
    - left. reflexivity.
    - right.
      rewrite (claimAndSend_success r (recorded r σ) t) by (rewrite ?Hs; assumption).
      simpl. rewrite Ha. reflexivity. }
  split.
  - intros q Hq.
    assert (Hrec : stringsCells (store (recorded r σ)) !! q =
                   Some (LogHeaders (options (service σ)))).
    { rewrite Hst, Hq. simpl. apply lookup_insert_eq. }
    destruct Hstore as [-> | ->]; [exact Hrec|].
    destruct (asStringPtr (Value (ctx r) contextKeyTarget)); simpl; exact Hrec.
  - intros p Hp Hother.
    assert (Hrec : stringCells (store (recorded r σ)) !! p = Some (name (service σ))).
    { rewrite Hst, Hp. simpl.
      destruct (asStringsPtr _); simpl; apply lookup_insert_eq. }
    destruct Hstore as [-> | ->]; [exact Hrec|].
    destruct (Value (ctx r) contextKeyTarget) as [[p'| | |]|] eqn:Ht; simpl;
      try exact Hrec.
    rewrite lookup_insert_ne by (apply Hother; reflexivity). exact Hrec.
Qed.

Local Abbreviation decodeService data :=
  (Json.decode (Codec := Service.marshalledService_codec (TargetOptions := TargetOptions))
               data
               (Json.zero (Codec := Service.marshalledService_codec
                                      (TargetOptions := TargetOptions)))).

(** X11.  How a restore fails.  A document that does not decode leaves the
    service untouched.  A document that decodes but names a target address
    that [NewTarget] refuses leaves a half-restored service: name, host and
    options are those of the document, while the active target, the pause
    control and the certificate manager are still the old ones. *)
Theorem UnmarshalJSON_failures s (data : Json.JSON) :
  (decodeService data = None ->
   fst (UnmarshalJSON s data) = s /\ snd (UnmarshalJSON s data) <> None) /\
  (forall ms, decodeService data = Some ms ->
              validTargetAddress (msActiveTarget ms) = false ->
              snd (UnmarshalJSON s data) <> None /\
              name (fst (UnmarshalJSON s data)) = msName ms /\
              host (fst (UnmarshalJSON s data)) = msHost ms /\
              options (fst (UnmarshalJSON s data)) = msOptions ms /\
              active (fst (UnmarshalJSON s data)) = active s /\
              pauseControl (fst (UnmarshalJSON s data)) = pauseControl s /\
              certManager (fst (UnmarshalJSON s data)) = certManager s).
Proof.
  unfold Service.UnmarshalJSON. split.
  - intros ->. simpl. split; [reflexivity|discriminate].
  - intros ms -> Hbad. unfold Target.NewTarget. rewrite Hbad. simpl.
    repeat split. discriminate.
Qed.

(** X12.  A restore that succeeds overwrites every field of the service:
    its result does not depend on the service it is applied to. *)
Theorem UnmarshalJSON_overwrites_receiver s s' (data : Json.JSON) :
  snd (UnmarshalJSON s data) = None ->
  UnmarshalJSON s' data = UnmarshalJSON s data.
Proof.
  unfold Service.UnmarshalJSON.
  destruct (Json.decode data _) as [ms|]; [|discriminate].
  destruct (Target.NewTarget _ _ _) as [t|e]; [|discriminate].
  intros _. reflexivity.
Qed.


End Facts.

(** *** Runs *)

Import Scenario.

Local Abbreviation ServeHTTP' := (Service.ServeHTTP IsHealthCheckRequest roundTrip).
Local Abbreviation UnmarshalJSON' :=
  (Service.UnmarshalJSON validTargetAddress sha256Hex pathJoin).

(** TLS switched on by an update, and by a restore. *)
Lemma certManager_follows_options_witness :
  (exists cm,
     certManager (Service.UpdateOptions sha256Hex pathJoin
                    (myapp plainOptions None running) tlsOptions) = Some cm /\
     HostPolicy cm = "app.example.com" /\
     Cache cm = "/var/cache/acme/sha256-of-https://acme.example/directory") /\
  snd (UnmarshalJSON' (myapp plainOptions None running) (saved tlsOptions "upstream:3000"))
    = None /\
  certManager (fst (UnmarshalJSON' (myapp plainOptions None running)
                                   (saved tlsOptions "upstream:3000"))) <> None.
Proof.
  destruct (certManager_follows_options validTargetAddress sha256Hex pathJoin
              "myapp" "app.example.com" tlsOptions (myapp plainOptions None running)
              (saved tlsOptions "upstream:3000")) as (_ & _ & Hrestore & Hupdate).
  split.
  - eexists. split; [reflexivity|].
    destruct (Hupdate _ eq_refl) as (Hhost & Hcache & _).
    split; [exact Hhost|exact Hcache].
  - split; [reflexivity|].
    intros Hnone. apply (Hrestore eq_refl) in Hnone. vm_compute in Hnone.
    discriminate Hnone.
Defined.

(** A request that waited until the pause expired. *)
Lemma ServeHTTP_logs_only_expired_pause_witness :
  upstream (snd (ServeHTTP' home
                   (world (myapp plainOptions
                                 (Some (upstream3000 Target.TargetStateHealthy))
                                 (pausedUntil DeadlineReached))))) = [] /\
  log (snd (ServeHTTP' home
              (world (myapp plainOptions
                            (Some (upstream3000 Target.TargetStateHealthy))
                            (pausedUntil DeadlineReached)))))
    = [Slog.Warn "Rejecting request due to expired pause"
                 [("service", "myapp"); ("path", "/")]].
Proof.
  split; [reflexivity|].
  exact (ServeHTTP_logs_only_expired_pause IsHealthCheckRequest roundTrip home
           (world (myapp plainOptions (Some (upstream3000 Target.TargetStateHealthy))
                         (pausedUntil DeadlineReached)))
           eq_refl).
Defined.

(** The request reaches the upstream, which fills the target cell; the
    service name and the headers to log stay in theirs. *)
Lemma recorded_values_survive_witness :
  Value (ctx home) contextKeyHeaders = Some (StringsPtr 3%nat) /\
  Value (ctx home) contextKeyService = Some (StringPtr 1%nat) /\
  stringsCells (store (snd (ServeHTTP' home
                              (world (myapp plainOptions
                                            (Some (upstream3000 Target.TargetStateHealthy))
                                            running))))) !! 3%nat
    = Some (Some ["X-Version"]) /\
  stringCells (store (snd (ServeHTTP' home
                             (world (myapp plainOptions
                                           (Some (upstream3000 Target.TargetStateHealthy))
                                           running))))) !! 1%nat
    = Some "myapp".
Proof.
  split; [reflexivity|]. split; [reflexivity|].
  destruct (recorded_values_survive IsHealthCheckRequest roundTrip home
              (world (myapp plainOptions (Some (upstream3000 Target.TargetStateHealthy))
                            running))) as [Hheaders Hname].
  split; [exact (Hheaders 3%nat eq_refl)|].
  apply (Hname 1%nat eq_refl).
  intros p' Hp'. vm_compute in Hp'. injection Hp' as <-. discriminate.
Defined.

(** A state file that is no object, and one without a target address. *)
Lemma UnmarshalJSON_failures_witness :
  (Json.decode (Codec := Service.marshalledService_codec (TargetOptions := TargetOptions))
               (Json.JString "myapp")
               (Json.zero (Codec := Service.marshalledService_codec
                                      (TargetOptions := TargetOptions))) = None /\
   fst (UnmarshalJSON' (myapp tlsOptions None stopped) (Json.JString "myapp"))
     = myapp tlsOptions None stopped) /\
  (validTargetAddress EmptyString = false /\
   options (fst (UnmarshalJSON' (myapp tlsOptions None stopped)
                                (saved plainOptions EmptyString))) = plainOptions /\
   certManager (fst (UnmarshalJSON' (myapp tlsOptions None stopped)
                                    (saved plainOptions EmptyString)))
     = certManager (myapp tlsOptions None stopped)).
Proof.
  split.
  - split; [reflexivity|].
    exact (proj1 (proj1 (UnmarshalJSON_failures validTargetAddress sha256Hex pathJoin
                           (myapp tlsOptions None stopped) (Json.JString "myapp"))
                        eq_refl)).
  - split; [reflexivity|].
    assert (Hdoc :
              Json.decode (Codec := Service.marshalledService_codec
                                      (TargetOptions := TargetOptions))
                          (saved plainOptions EmptyString)
                          (Json.zero (Codec := Service.marshalledService_codec
                                                 (TargetOptions := TargetOptions)))
              = Some (mkMarshalledService "myapp" "app.example.com" EmptyString
                                          plainOptions healthCheck))
      by reflexivity.
    destruct (proj2 (UnmarshalJSON_failures validTargetAddress sha256Hex pathJoin
                       (myapp tlsOptions None stopped) (saved plainOptions EmptyString))
                    _ Hdoc eq_refl) as (_ & _ & _ & Hoptions & _ & _ & Hcert).
    split; [exact Hoptions|exact Hcert].
Defined.

(** The same state file restored into two different services. *)
Lemma UnmarshalJSON_overwrites_receiver_witness :
  snd (UnmarshalJSON' (myapp plainOptions None running) (saved tlsOptions "upstream:3000"))
    = None /\
  UnmarshalJSON' (myapp plainOptions (Some (upstream3000 Target.TargetStateDraining))
                        stopped)
                 (saved tlsOptions "upstream:3000")
  = UnmarshalJSON' (myapp plainOptions None running) (saved tlsOptions "upstream:3000").
Proof.
  split; [reflexivity|].
  exact (UnmarshalJSON_overwrites_receiver validTargetAddress sha256Hex pathJoin
           (myapp plainOptions None running)
           (myapp plainOptions (Some (upstream3000 Target.TargetStateDraining)) stopped)
           (saved tlsOptions "upstream:3000") eq_refl).
Defined.


End ServiceRunFacts.


(** ** Swapping, stopping, pausing and resuming *)

Module ServiceControlFacts.

Import Http PauseControl Service ServiceControl.

Section Facts.

Context {TargetOptions : Type}.
Variable pcStop : PauseControl -> PauseControl * option error.
Variable pcPause : PauseControl -> Z -> PauseControl * option error.
Variable pcResume : PauseControl -> PauseControl * option error.
Variable StopHealthChecks : Target.Target TargetOptions -> Target.Target TargetOptions.
Variable Drain : option (Target.Target TargetOptions) -> Z ->
                 option (Target.Target TargetOptions).

Implicit Type s : @Service.Service TargetOptions.
Implicit Type ts : list (option (Target.Target TargetOptions)).

Local Abbreviation SetActiveTarget := (ServiceControl.SetActiveTarget StopHealthChecks).
Local Abbreviation deploy := (ServiceControl.deploy StopHealthChecks).
Local Abbreviation Stop := (ServiceControl.Stop pcStop Drain).
Local Abbreviation Pause := (ServiceControl.Pause pcPause Drain).
Local Abbreviation Resume := (ServiceControl.Resume pcResume).

Lemma SetActiveTarget_result s (t : option (Target.Target TargetOptions)) (d : Z) :
  fst (SetActiveTarget s t d) = setActive s t /\
  snd (SetActiveTarget s t d) =
    map (fun old => (StopHealthChecks old, d)) (omap id [active s]).
Proof.
  unfold ServiceControl.SetActiveTarget. destruct (active s); simpl; auto.
Qed.

(** X15.  Over any sequence of deployments, the active target is the one
    installed last, every target that was replaced is handed to [Drain]
    exactly once, in the order of replacement and after its health checks
    were stopped, and nothing else of the service changes. *)
Theorem deploy_drains_each_replaced_target s ts (d : Z) :
  last (active s :: ts) = Some (active (fst (deploy s ts d))) /\
  snd (deploy s ts d) =
    map (fun old => (StopHealthChecks old, d)) (omap id (removelast (active s :: ts))) /\
  fst (deploy s ts d) = setActive s (active (fst (deploy s ts d))).
Proof.
  revert s. induction ts as [|t ts IH]; intros s.
  - simpl. repeat split. symmetry. apply ServiceFacts.setActive_same.
  - simpl deploy. destruct (SetActiveTarget_result s t d) as [Hs1 Hst].
    destruct (SetActiveTarget s t d) as [s1 started]. simpl in Hs1, Hst. subst s1 started.
    destruct (IH (setActive s t)) as (Hlast & Hdr & Hfr).
    destruct (deploy (setActive s t) ts d) as [s2 started']. simpl in *.
    split; [exact Hlast|]. split.
    + rewrite Hdr. destruct (active s); reflexivity.
    + rewrite Hfr. destruct s; reflexivity.
Qed.

(** X16.  [Stop], [Pause] and [Resume] return the error of the pause
    control and keep the control as it leaves it; [Pause] gives it
    [pauseTimeout].  None of the three changes name, host, options or
    certificate manager.  When the pause control refuses, nothing is logged
    and the active target is left alone.  When it accepts, [Stop] and
    [Pause] log the transition, drain the active target with [drainTimeout]
    and log that too; [Resume] logs the transition and never touches the
    target. *)
Theorem control_operations s (drainTimeout pauseTimeout : Z) (lg : list Slog.Record_) :
  (forall out pc,
     In (out, pc) [(Stop s drainTimeout lg, pcStop (pauseControl s));
                   (Pause s drainTimeout pauseTimeout lg,
                    pcPause (pauseControl s) pauseTimeout);
                   (Resume s lg, pcResume (pauseControl s))] ->
     snd out = snd pc /\
     pauseControl (fst (fst out)) = fst pc /\
     sameConfiguration s (fst (fst out)) /\
     (snd out <> None -> snd (fst out) = lg /\ active (fst (fst out)) = active s)) /\
  (snd (Stop s drainTimeout lg) = None ->
   active (fst (fst (Stop s drainTimeout lg))) = Drain (active s) drainTimeout /\
   snd (fst (Stop s drainTimeout lg)) =
     lg ++ [Slog.Info "Service stopped" [("service", name s)];
            Slog.Info "Service drained" [("service", name s)]]) /\
  (snd (Pause s drainTimeout pauseTimeout lg) = None ->
   active (fst (fst (Pause s drainTimeout pauseTimeout lg))) =
     Drain (active s) drainTimeout /\
   snd (fst (Pause s drainTimeout pauseTimeout lg)) =
     lg ++ [Slog.Info "Service paused" [("service", name s)];
            Slog.Info "Service drained" [("service", name s)]]) /\
  active (fst (fst (Resume s lg))) = active s /\
  (snd (Resume s lg) = None ->
   snd (fst (Resume s lg)) = lg ++ [Slog.Info "Service resumed" [("service", name s)]]).
Proof.
  unfold ServiceControl.Stop, ServiceControl.Pause, ServiceControl.Resume, ActiveTarget,
    sameConfiguration.
  destruct (pcStop (pauseControl s)) as [p1 [e1|]];
    destruct (pcPause (pauseControl s) pauseTimeout) as [p2 [e2|]];
    destruct (pcResume (pauseControl s)) as [p3 [e3|]]; simpl;
    (split; [intros out pc [[= <- <-]|[[= <- <-]|[[= <- <-]|[]]]]; simpl;
             repeat split; congruence|]);
    rewrite <- ?app_assoc; repeat split; discriminate.
Qed.

End Facts.

(** *** Runs *)

Import Scenario.

(** A running service is stopped; a stopped one refuses to resume. *)
Lemma control_operations_witness :
  (snd (ServiceControl.Stop SpecControl.Stop SpecControl.Drain
          (myapp plainOptions (Some (upstream3000 Target.TargetStateHealthy)) running)
          30 []) = None /\
   active (fst (fst (ServiceControl.Stop SpecControl.Stop SpecControl.Drain
                       (myapp plainOptions (Some (upstream3000 Target.TargetStateHealthy))
                              running)
                       30 [])))
     = Some (upstream3000 Target.TargetStateDraining) /\
   snd (fst (ServiceControl.Stop SpecControl.Stop SpecControl.Drain
               (myapp plainOptions (Some (upstream3000 Target.TargetStateHealthy))
                      running)
               30 []))
     = [Slog.Info "Service stopped" [("service", "myapp")];
        Slog.Info "Service drained" [("service", "myapp")]]) /\
  (snd (ServiceControl.Resume SpecControl.Resume (myapp plainOptions None stopped) [])
     <> None /\
   snd (fst (ServiceControl.Resume SpecControl.Resume (myapp plainOptions None stopped) []))
     = []).
Proof.
  destruct (control_operations SpecControl.Stop SpecControl.Pause SpecControl.Resume
              SpecControl.Drain
              (myapp plainOptions (Some (upstream3000 Target.TargetStateHealthy)) running)
              30 60 []) as (_ & Hstop & _).
  destruct (control_operations SpecControl.Stop SpecControl.Pause SpecControl.Resume
              SpecControl.Drain (myapp plainOptions None stopped) 30 60 [])
    as (Hall & _).
  split.
  - split; [reflexivity|]. exact (Hstop eq_refl).
  - assert (Hrefused :
              snd (ServiceControl.Resume SpecControl.Resume
                     (myapp plainOptions None stopped) []) <> None).
    { intros Hnone. vm_compute in Hnone. discriminate Hnone. }
    split; [exact Hrefused|].
    destruct (Hall _ _ (or_intror (or_intror (or_introl eq_refl))))
      as (_ & _ & _ & Hleft).
    exact (proj1 (Hleft Hrefused)).
Defined.

End ServiceControlFacts.
